(** * Config-control-service: validation, versioned store and template rendering

    A shallow embedding of the Python package [config_service]:
    - [validation/schemas.py]   : the [schema] library schemas and
                                  [get_validation_errors] / [ConfigValidator.validate];
    - [validation/validators.py]: [YAMLValidator.parse_yaml];
    - [db/connection.py]        : [save_configuration], [get_configuration],
                                  [get_configuration_history] over a relational table;
    - [api/handlers.py]         : [ConfigurationHandler.get_configuration_history];
    - [templates/renderer.py]   : [render_config_template] (json.dumps, a Jinja2
                                  lexer/renderer for the constructs used, json.loads),
                                  [process_template_request], [render_string_template]
                                  and [validate_template_syntax];
    - [validators.py] again     : [validate_config], [quick_yaml_check],
                                  [check_required_fields], and [schemas.py]'s
                                  [validate_required_fields];
    - [api/handlers.py] again   : [create_configuration], [get_configuration];
    - [api/resources.py]        : [_parse_query_params], the parameters of
                                  [ConfigResource.render_GET], [render_POST]. *)

From Stdlib Require Import String Ascii List ZArith Bool Lia.
From Stdlib Require Import Sorting.Sorted Permutation.
From Stdlib Require DecimalString DecimalZ DecimalPos DecimalFacts.
Import ListNotations.
Local Open Scope string_scope.
Local Open Scope Z_scope.
Local Set Warnings "-register-all".

(** ** Python values (the documents produced by yaml.safe_load / json.loads) *)

(** A Python float.  A finite float is carried by its [repr] text (the text
    [json.dumps] prints for it); NaN and the infinities are separate. *)
Inductive flt :=
| FNum (text : string)
| FNaN
| FInf (neg : bool).

(** Documents: a Python dict is an association list in insertion order
    (string keys); strings are sequences of code points below 256. *)
Inductive value :=
| VNull
| VBool (b : bool)
| VInt (z : Z)
| VFloat (f : flt)
| VStr (s : string)
| VList (l : list value)
| VDict (kvs : list (string * value)).

(** Induction principle for the nested lists of [value]. *)
Section ValueInd.
Variable P : value -> Prop.
Hypothesis HNull : P VNull.
Hypothesis HBool : forall b, P (VBool b).
Hypothesis HInt : forall z, P (VInt z).
Hypothesis HFloat : forall f, P (VFloat f).
Hypothesis HStr : forall s, P (VStr s).
Hypothesis HList : forall l, Forall P l -> P (VList l).
Hypothesis HDict : forall kvs, Forall (fun kv => P (snd kv)) kvs -> P (VDict kvs).

Fixpoint value_ind' (v : value) : P v :=
  match v with
  | VNull => HNull
  | VBool b => HBool b
  | VInt z => HInt z
  | VFloat f => HFloat f
  | VStr s => HStr s
  | VList l =>
      HList l ((fix go (l : list value) : Forall P l :=
                  match l with
                  | [] => Forall_nil _
                  | x :: r => Forall_cons _ (value_ind' x) (go r)
                  end) l)
  | VDict kvs =>
      HDict kvs ((fix go (l : list (string * value)) : Forall (fun kv => P (snd kv)) l :=
                    match l with
                    | [] => Forall_nil _
                    | kv :: r => Forall_cons _ (value_ind' (snd kv)) (go r)
                    end) kvs)
  end.
End ValueInd.

(** ** Python dict operations on association lists *)

Section Dict.
Context {A : Type}.

(** [d.get(k)] *)
Fixpoint dict_get (k : string) (d : list (string * A)) : option A :=
  match d with
  | [] => None
  | (k', v) :: r => if String.eqb k k' then Some v else dict_get k r
  end.

(** [k in d] *)
Definition dict_has (k : string) (d : list (string * A)) : bool :=
  match dict_get k d with Some _ => true | None => false end.

(** [d[k] = v]: an existing key keeps its position, a new key goes last. *)
Fixpoint dict_set (k : string) (v : A) (d : list (string * A)) : list (string * A) :=
  match d with
  | [] => [(k, v)]
  | (k', v') :: r => if String.eqb k k' then (k', v) :: r else (k', v') :: dict_set k v r
  end.

(** [{**a, **b}]: the entries of [b] set one by one into [a]. *)
Definition dict_merge (a b : list (string * A)) : list (string * A) :=
  fold_left (fun acc kv => dict_set (fst kv) (snd kv) acc) b a.
End Dict.

(** ** Python truthiness and [isinstance] *)

Definition is_digit (c : ascii) : bool :=
  let n := nat_of_ascii c in (48 <=? n)%nat && (n <=? 57)%nat.

(** A float repr text denotes zero when all digits of its mantissa are 0. *)
Fixpoint float_text_zero (s : string) : bool :=
  match s with
  | EmptyString => true
  | String c r =>
      if (c =? "e")%char || (c =? "E")%char then true
      else if is_digit c && negb (c =? "0")%char then false
      else float_text_zero r
  end.

Definition py_truthy (v : value) : bool :=
  match v with
  | VNull => false
  | VBool b => b
  | VInt z => negb (z =? 0)
  | VFloat (FNum t) => negb (float_text_zero t)
  | VFloat _ => true
  | VStr s => negb (String.eqb s "")
  | VList l => match l with [] => false | _ => true end
  | VDict d => match d with [] => false | _ => true end
  end.

(** The Python classes named in the schemas ([object] is [TObject]). *)
Inductive pytype := TInt | TBool | TStr | TFloat | TDict | TObject.

(** [isinstance(v, t)]: [bool] is a subclass of [int]. *)
Definition isinstance (v : value) (t : pytype) : bool :=
  match t, v with
  | TObject, _ => true
  | TInt, (VInt _ | VBool _) => true
  | TBool, VBool _ => true
  | TStr, VStr _ => true
  | TFloat, VFloat _ => true
  | TDict, VDict _ => true
  | _, _ => false
  end.

(** ** The [schema] library (the part the schemas of [schemas.py] use) *)

(** A dict key schema: a literal key ([COMPARABLE]) or a class ([TYPE]). *)
Inductive key_schema := KLit (k : string) | KType (t : pytype).

Inductive schema :=
| SType (t : pytype)                            (* a class *)
| SAnd (ss : list schema)                       (* And(...) *)
| SOr (ss : list schema)                        (* Or(...) *)
| SCall (name : string) (f : value -> bool)     (* a callable *)
| SDict (entries : list (bool * key_schema * schema)).  (* a dict; [true] = Optional(key) *)

Inductive schema_error :=
| EType (t : pytype) (got : value)          (* "%r should be instance of %r" *)
| ECall (name : string) (got : value)       (* "%s(%r) should evaluate to True" *)
| EOr (errs : list schema_error)            (* "%r did not validate %r" *)
| EKey (k : string) (inner : schema_error)  (* "Key '%s' error:" *)
| EMissing (ks : list key_schema)           (* "Missing key(s): ..." *)
| EWrong (ks : list string).                (* "Wrong key(s) ... in ..." *)

(** [Schema._dict_key_priority], doubled: COMPARABLE = 0, TYPE = 3, and
    [Optional] adds one half. *)
Definition key_priority (opt : bool) (ks : key_schema) : nat :=
  (2 * match ks with KLit _ => 0 | KType _ => 3 end + if opt then 1 else 0)%nat.

(** [Schema(skey).validate(key)] succeeds. *)
Definition key_matches (ks : key_schema) (k : string) : bool :=
  match ks with
  | KLit s => String.eqb s k
  | KType t => isinstance (VStr k) t
  end.

(** A compiled dict entry: its position in the schema dict, Optional flag,
    key schema and value validator. *)
Definition centry : Type := (nat * bool * key_schema * (value -> option schema_error))%type.

Definition centry_prio (e : centry) : nat :=
  match e with (_, opt, ks, _) => key_priority opt ks end.

(** Python's [sorted] (stable) by a nat key. *)
Section StableSort.
Context {A : Type} (key : A -> nat).
Fixpoint insert_by (x : A) (l : list A) : list A :=
  match l with
  | [] => [x]
  | y :: r => if (key x <=? key y)%nat then x :: y :: r else y :: insert_by x r
  end.
Fixpoint sort_by (l : list A) : list A :=
  match l with [] => [] | x :: r => insert_by x (sort_by r) end.
End StableSort.

Fixpoint tag_entries {B : Type} (i : nat) (l : list B) : list (nat * B) :=
  match l with [] => [] | x :: r => (i, x) :: tag_entries (S i) r end.

Fixpoint first_match (es : list centry) (k : string)
  : option (nat * (value -> option schema_error)) :=
  match es with
  | [] => None
  | (i, _, ks, f) :: r => if key_matches ks k then Some (i, f) else first_match r k
  end.

(** The item loop of the DICT flavour: each data item is checked against the
    first matching schema key (in priority order); a failing value raises at
    once.  Returns the covered schema keys and the keys that matched none. *)
Fixpoint check_items (es : list centry) (items : list (string * value))
  (cov : list nat) (unmatched : list string)
  : (schema_error + (list nat * list string)) :=
  match items with
  | [] => inr (cov, unmatched)
  | (k, v) :: r =>
      match first_match es k with
      | None => check_items es r cov (unmatched ++ [k])%list
      | Some (i, f) =>
          match f v with
          | Some e => inl (EKey k e)
          | None => check_items es r (i :: cov) unmatched
          end
      end
  end.

Definition is_dict_value (kv : string * value) : nat :=
  match snd kv with VDict _ => 1 | _ => 0 end.

Definition check_dict (es : list centry) (v : value) : option schema_error :=
  match v with
  | VDict kvs =>
      (* data items are evaluated with dictionaries last *)
      match check_items (sort_by centry_prio es) (sort_by is_dict_value kvs) [] [] with
      | inl e => Some e
      | inr (cov, wrong) =>
          let missing :=
            map (fun e => match e with (_, _, ks, _) => ks end)
              (filter (fun e => match e with
                                | (i, opt, _, _) => negb opt && negb (existsb (Nat.eqb i) cov)
                                end) es) in
          match missing, wrong with
          | [], [] => None
          | [], _ => Some (EWrong wrong)
          | _, _ => Some (EMissing missing)
          end
      end
  | _ => Some (EType TDict v)
  end.

(** [Schema(s).validate(v)]: [None] when it validates, the raised error
    otherwise (the validated copy it returns is discarded by every caller).
    The TYPE flavour refuses a [bool] where [int] is asked. *)
Fixpoint validate_s (s : schema) (v : value) : option schema_error :=
  match s with
  | SType t =>
      if isinstance v t && negb (isinstance v TBool && match t with TInt => true | _ => false end)
      then None else Some (EType t v)
  | SAnd ss =>
      (fix go (ss : list schema) : option schema_error :=
         match ss with
         | [] => None
         | s1 :: r => match validate_s s1 v with Some e => Some e | None => go r end
         end) ss
  | SOr ss =>
      (fix go (ss : list schema) (errs : list schema_error) : option schema_error :=
         match ss with
         | [] => Some (EOr errs)
         | s1 :: r => match validate_s s1 v with Some e => go r (errs ++ [e])%list | None => None end
         end) ss []
  | SCall name f => if f v then None else Some (ECall name v)
  | SDict entries =>
      check_dict
        (map (fun e => match e with (i, (opt, ks, vs)) => (i, opt, ks, vs) end)
           (tag_entries 0
              ((fix go (l : list (bool * key_schema * schema))
                  : list (bool * key_schema * (value -> option schema_error)) :=
                  match l with
                  | [] => []
                  | (opt, ks, vs) :: r => (opt, ks, validate_s vs) :: go r
                  end) entries)))
        v
  end.

(** ** [schemas.py] *)

(** [lambda v: v > 0] (reached only after the [int] check). *)
Definition positive_lambda (v : value) : bool :=
  match v with VInt z => 0 <? z | VBool b => b | _ => false end.

(** [lambda p: 1 <= p <= 65535] (reached only after the [int] check). *)
Definition port_lambda (v : value) : bool :=
  match v with
  | VInt z => (1 <=? z) && (z <=? 65535)
  | VBool b => b
  | _ => false
  end.

(** [len] as a predicate on a string. *)
Definition len_truthy (v : value) : bool :=
  match v with VStr s => negb (String.eqb s "") | _ => false end.

Definition BASE_CONFIG_SCHEMA : schema :=
  SDict [
    (false, KLit "version", SAnd [SType TInt; SCall "<lambda>" positive_lambda]);
    (true, KLit "database",
      SDict [(false, KLit "host", SAnd [SType TStr; SCall "len" len_truthy]);
             (false, KLit "port", SAnd [SType TInt; SCall "<lambda>" port_lambda])]);
    (true, KLit "features",
      SDict [(false, KType TStr, SOr [SType TBool; SType TStr; SType TInt; SType TFloat])]);
    (true, KType TStr, SType TObject)].

Definition REQUIRED_FIELDS_SCHEMA : schema :=
  SDict [(false, KLit "version", SType TInt); (true, KType TStr, SType TObject)].

(** [validate_config_schema]: [None] for [return True], the re-raised
    ["Validation error: ..."] error otherwise. *)
Definition validate_config_schema (config_data : list (string * value)) : option schema_error :=
  match validate_s REQUIRED_FIELDS_SCHEMA (VDict config_data) with
  | Some e => Some e
  | None =>
      if dict_has "database" config_data
      then validate_s BASE_CONFIG_SCHEMA (VDict config_data)
      else None
  end.

(** An entry of the error list: [str(e)] of a schema error, or a message. *)
Inductive verror :=
| VSchemaError (e : schema_error)
| VMsg (m : string).

(** A Python exception escaping a function: [AttributeError], or a database
    error raised by the backend. *)
Inductive exc := AttributeError (m : string) | DataError (m : string).

Inductive pyres (A : Type) := Ret (a : A) | Raise (e : exc).
Arguments Ret {A} a.
Arguments Raise {A} e.

Definition host_msg := "database.host must be a non-empty string".
Definition port_msg := "database.port must be an integer between 1 and 65535".

Definition opt_truthy (o : option value) : bool :=
  match o with Some v => py_truthy v | None => false end.
Definition opt_isinstance (o : option value) (t : pytype) : bool :=
  match o with Some v => isinstance v t | None => false end.

(** [1 <= port <= 65535] for an [int] (a [bool] counts as 0 or 1). *)
Definition in_port_range (o : option value) : bool :=
  match o with
  | Some (VInt z) => (1 <=? z) && (z <=? 65535)
  | Some (VBool b) => b
  | _ => false
  end.

(** [get_validation_errors]; [db_config.get] raises when [database] is not a dict. *)
Definition get_validation_errors (config_data : list (string * value)) : pyres (list verror) :=
  let errors :=
    match validate_config_schema config_data with
    | Some e => [VSchemaError e]
    | None => []
    end in
  match dict_get "database" config_data with
  | None => Ret errors
  | Some (VDict db_config) =>
      let host := dict_get "host" db_config in
      let errors :=
        if negb (opt_truthy host) || negb (opt_isinstance host TStr)
        then (errors ++ [VMsg host_msg])%list else errors in
      let port := dict_get "port" db_config in
      let errors :=
        if negb (opt_isinstance port TInt) || negb (in_port_range port)
        then (errors ++ [VMsg port_msg])%list else errors in
      Ret errors
  | Some _ => Raise (AttributeError "object has no attribute 'get'")
  end.

(** [ConfigValidator.validate]: [(is_valid, errors)]. *)
Definition validate (config_data : list (string * value)) : pyres (bool * list verror) :=
  match get_validation_errors config_data with
  | Ret errors => Ret (match errors with [] => true | _ => false end, errors)
  | Raise e => Raise e
  end.

Example validate_ok :
  validate [("version", VInt 1);
            ("database", VDict [("host", VStr "localhost"); ("port", VInt 5432)]);
            ("features", VDict [("enable_auth", VBool true)])] = Ret (true, []).
Proof. reflexivity. Qed.

(** The sub-schemas of [BASE_CONFIG_SCHEMA], as written inline there. *)
Definition VERSION_SCHEMA : schema := SAnd [SType TInt; SCall "<lambda>" positive_lambda].
Definition DATABASE_SCHEMA : schema :=
  SDict [(false, KLit "host", SAnd [SType TStr; SCall "len" len_truthy]);
         (false, KLit "port", SAnd [SType TInt; SCall "<lambda>" port_lambda])].
Definition FEATURE_VALUE_SCHEMA : schema := SOr [SType TBool; SType TStr; SType TInt; SType TFloat].
Definition FEATURES_SCHEMA : schema := SDict [(false, KType TStr, FEATURE_VALUE_SCHEMA)].

(** The rule of the [features] section, in the words of the spec: a
    [features] value is wrong when it is not an object or when one of its
    values is none of bool, str, int, float. *)
Definition feature_value_ok (v : value) : bool :=
  isinstance v TBool || isinstance v TStr || isinstance v TInt || isinstance v TFloat.

Definition features_bad (v : value) : bool :=
  match v with
  | VDict kvs => existsb (fun kv => negb (feature_value_ok (snd kv))) kvs
  | _ => true
  end.

(** A document without [version] used to exercise the amended C1. *)
Definition C1_sample : list (string * value) :=
  [("database", VDict [("host", VStr "db"); ("port", VInt 5432)])].

(** ** [validators.py]: [YAMLValidator.parse_yaml] *)

(** The outcome of PyYAML's [yaml.safe_load]: a loaded value or one of the
    exceptions [parse_yaml] tells apart. *)
Inductive yaml_load_result :=
| YLoaded (v : value)
| YScannerError (msg : string)
| YParserError (msg : string)
| YOtherError (msg : string).

(** Python's [str.isspace] on code points below 256. *)
Definition py_isspace (c : ascii) : bool :=
  let n := nat_of_ascii c in
  ((9 <=? n) && (n <=? 13))%nat || ((28 <=? n) && (n <=? 32))%nat
  || (n =? 133)%nat || (n =? 160)%nat.

(** [s.strip() == ""] *)
Fixpoint py_strip_empty (s : string) : bool :=
  match s with
  | EmptyString => true
  | String c r => py_isspace c && py_strip_empty r
  end.

Section ParseYaml.
(** PyYAML's loader is a parameter of the parser. *)
Variable safe_load : string -> yaml_load_result.

(** [YAMLValidator.parse_yaml]: [(success, parsed_data, error_message)]. *)
Definition parse_yaml (yaml_content : string)
  : bool * option (list (string * value)) * option string :=
  if String.eqb yaml_content "" || py_strip_empty yaml_content
  then (false, None, Some "Empty YAML content")
  else
    match safe_load yaml_content with
    | YLoaded (VDict data) => (true, Some data, None)
    | YLoaded _ => (false, None, Some "YAML must represent a dictionary/object")
    | YScannerError m => (false, None, Some ("YAML syntax error: " ++ m))
    | YParserError m => (false, None, Some ("YAML parsing error: " ++ m))
    | YOtherError m => (false, None, Some ("YAML processing error: " ++ m))
    end.
End ParseYaml.

(** ** [db/connection.py]: the versioned store *)

(** Modelled from the spec: the [configurations] table, whose definition is
    not among the sources.  A row is (id, service, version, payload,
    created_at); [id] and [created_at] are assigned by the backend on insert
    (a counter and a clock); the [version] column holds integers; there is no
    uniqueness constraint on (service, version) (spec, section 9). *)
Record row := mkRow {
  row_id : Z;
  row_service : string;
  row_version : Z;
  row_payload : list (string * value);
  row_created_at : Z
}.

Record db := mkDb {
  db_rows : list row;
  db_next_id : Z;
  db_clock : Z
}.

Definition empty_db : db := mkDb [] 1 0.

(** A store with rows of two services, [auth] at versions 3 and 5 and
    [billing] at version 7. *)
Definition sample_store : db :=
  mkDb [mkRow 1 "auth" 3 [("version", VInt 3)] 0;
        mkRow 2 "billing" 7 [("version", VInt 7)] 1;
        mkRow 3 "auth" 5 [("version", VInt 5)] 2] 4 3.

(** [WHERE service = %s] *)
Definition rows_of (service : string) (rows : list row) : list row :=
  filter (fun r => String.eqb (row_service r) service) rows.

(** [SELECT COALESCE(MAX(version), 0) FROM configurations WHERE service = %s] *)
Definition q_max_version (d : db) (service : string) : Z :=
  match rows_of service (db_rows d) with
  | [] => 0
  | r :: rs => fold_left (fun m r' => Z.max m (row_version r')) rs (row_version r)
  end.

(** [ORDER BY version DESC]: ties keep the table order. *)
Fixpoint insert_desc (x : row) (l : list row) : list row :=
  match l with
  | [] => [x]
  | y :: r => if row_version y <=? row_version x then x :: y :: r else y :: insert_desc x r
  end.

Fixpoint sort_desc (l : list row) : list row :=
  match l with [] => [] | x :: r => insert_desc x (sort_desc r) end.

(** [INSERT INTO configurations (service, version, payload) VALUES (...)
    RETURNING id, created_at] *)
Definition insert_row (d : db) (service : string) (version : Z)
  (payload : list (string * value)) : db * (Z * Z) :=
  let id := db_next_id d in
  let ts := db_clock d in
  (mkDb (db_rows d ++ [mkRow id service version payload ts]) (id + 1) (ts + 1), (id, ts)).

(** [ConfigurationModel] *)
Record config_model := mkModel {
  m_id : Z;
  m_service : string;
  m_version : value;
  m_payload : list (string * value);
  m_created_at : Z
}.

Definition model_of_row (r : row) : config_model :=
  mkModel (row_id r) (row_service r) (VInt (row_version r)) (row_payload r) (row_created_at r).

Definition version_column_error : exc :=
  DataError "column version holds integers".

(** [DatabaseConnection.save_configuration]: [payload.get('version')] is
    [None] for a missing key and for a [null] value alike. *)
Definition save_configuration (d : db) (service : string) (payload : list (string * value))
  : pyres (config_model * db) :=
  let '(version, payload) :=
    match dict_get "version" payload with
    | None | Some VNull =>
        let version := VInt (q_max_version d service + 1) in
        (version, dict_set "version" version payload)
    | Some v => (v, payload)
    end in
  match version with
  | VInt z =>
      let '(d', (id, created_at)) := insert_row d service z payload in
      Ret (mkModel id service version payload created_at, d')
  | _ => Raise version_column_error
  end.

(** A sequence of saves, each on the store the previous one left. *)
Fixpoint save_all (d : db) (reqs : list (string * list (string * value))) : pyres db :=
  match reqs with
  | [] => Ret d
  | (service, payload) :: r =>
      match save_configuration d service payload with
      | Ret (_, d') => save_all d' r
      | Raise e => Raise e
      end
  end.

(** [DatabaseConnection.get_configuration] *)
Definition get_configuration (d : db) (service : string) (version : option Z)
  : option config_model :=
  let result :=
    match version with
    | None => firstn 1 (sort_desc (rows_of service (db_rows d)))
    | Some v => filter (fun r => row_version r =? v) (rows_of service (db_rows d))
    end in
  match result with
  | [] => None
  | r :: _ => Some (model_of_row r)
  end.

(** [ConfigHistoryItem] *)
Record history_item := mkItem { h_version : Z; h_created_at : Z }.

Definition item_of_row (r : row) : history_item := mkItem (row_version r) (row_created_at r).

(** [DatabaseConnection.get_configuration_history] *)
Definition get_configuration_history (d : db) (service : string) : list history_item :=
  map item_of_row (sort_desc (rows_of service (db_rows d))).

(** ** [api/handlers.py]: the history endpoint *)

(** [ApiResponse] of the history endpoint (its data is the history list). *)
Record api_response := mkResp {
  resp_data : option (list history_item);
  resp_error : option string;
  resp_status : Z
}.

(** [ConfigurationHandler.get_configuration_history] *)
Definition handler_get_configuration_history (d : db) (service : string) : api_response :=
  match get_configuration_history d service with
  | [] => mkResp None (Some ("No configuration history found for service '" ++ service ++ "'")) 404
  | history => mkResp (Some history) None 200
  end.

(** ** [templates/renderer.py] *)

(** *** [json.dumps(value, ensure_ascii=False, indent=2)] *)

Definition dq : ascii := ascii_of_nat 34.
Definition bsl : ascii := ascii_of_nat 92.
Definition nl : ascii := ascii_of_nat 10.

Definition hex_digit (n : nat) : ascii :=
  ascii_of_nat (if (n <? 10)%nat then 48 + n else 87 + n)%nat.

(** [ESCAPE_DCT] of the json module: quote, backslash and the characters
    below 0x20 are escaped, everything else is kept ([ensure_ascii=False]). *)
Definition json_escape_char (c : ascii) : string :=
  let n := nat_of_ascii c in
  if (n =? 34)%nat then String bsl (String dq EmptyString)
  else if (n =? 92)%nat then String bsl (String bsl EmptyString)
  else if (n =? 10)%nat then String bsl "n"
  else if (n =? 13)%nat then String bsl "r"
  else if (n =? 9)%nat then String bsl "t"
  else if (n =? 8)%nat then String bsl "b"
  else if (n =? 12)%nat then String bsl "f"
  else if (n <? 32)%nat then
    String bsl (String "u" (String "0" (String "0"
      (String (hex_digit (n / 16)) (String (hex_digit (n mod 16)) EmptyString)))))
  else String c EmptyString.

Fixpoint json_escape (s : string) : string :=
  match s with
  | EmptyString => EmptyString
  | String c r => json_escape_char c ++ json_escape r
  end.

(** [py_encode_basestring] *)
Definition encode_str (s : string) : string := String dq (json_escape s ++ String dq EmptyString).

(** [int.__repr__] *)
Definition py_int_repr (z : Z) : string := DecimalString.NilZero.string_of_int (Z.to_int z).

(** [floatstr] with [allow_nan=True] *)
Definition float_repr (f : flt) : string :=
  match f with
  | FNum t => t
  | FNaN => "NaN"
  | FInf false => "Infinity"
  | FInf true => "-Infinity"
  end.

Fixpoint spaces (n : nat) : string :=
  match n with O => EmptyString | S m => String " " (spaces m) end.

(** ['\n' + indent * level] *)
Definition newline_indent (lvl : nat) : string := String nl (spaces (2 * lvl)).

(** The items of a container, [sep] between two of them. *)
Fixpoint join_items {A : Type} (pr : A -> string) (sep : string) (l : list A) : string :=
  match l with
  | [] => EmptyString
  | x :: r => pr x ++ match r with [] => EmptyString | _ => sep ++ join_items pr sep r end
  end.

(** [_iterencode] at indentation level [lvl]; item separator [","] and key
    separator [": "]. *)
Fixpoint dumps_at (lvl : nat) (v : value) : string :=
  match v with
  | VNull => "null"
  | VBool b => if b then "true" else "false"
  | VInt z => py_int_repr z
  | VFloat f => float_repr f
  | VStr s => encode_str s
  | VList [] => "[]"
  | VList l =>
      "[" ++ newline_indent (S lvl) ++
      join_items (dumps_at (S lvl)) ("," ++ newline_indent (S lvl)) l
      ++ newline_indent lvl ++ "]"
  | VDict [] => "{}"
  | VDict kvs =>
      "{" ++ newline_indent (S lvl) ++
      join_items (fun kv => encode_str (fst kv) ++ ": " ++ dumps_at (S lvl) (snd kv))
        ("," ++ newline_indent (S lvl)) kvs
      ++ newline_indent lvl ++ "}"
  end.

Definition json_dumps (v : value) : string := dumps_at 0 v.

(** *** [json.loads] *)

Definition is_json_ws (c : ascii) : bool :=
  let n := nat_of_ascii c in ((n =? 32) || (n =? 9) || (n =? 10) || (n =? 13))%nat.

Fixpoint skip_ws (s : string) : string :=
  match s with
  | EmptyString => EmptyString
  | String c r => if is_json_ws c then skip_ws r else s
  end.

Fixpoint strip_prefix (p s : string) : option string :=
  match p, s with
  | EmptyString, _ => Some s
  | String c p', String d s' => if (c =? d)%char then strip_prefix p' s' else None
  | _, _ => None
  end.

Definition hex_val (c : ascii) : option nat :=
  let n := nat_of_ascii c in
  if ((48 <=? n) && (n <=? 57))%nat then Some (n - 48)%nat
  else if ((97 <=? n) && (n <=? 102))%nat then Some (n - 87)%nat
  else if ((65 <=? n) && (n <=? 70))%nat then Some (n - 55)%nat
  else None.

(** The character of a one-letter escape [\x]. *)
Definition simple_escape (e : ascii) : option ascii :=
  let n := nat_of_ascii e in
  if (n =? 34)%nat then Some dq
  else if (n =? 92)%nat then Some bsl
  else if (n =? 47)%nat then Some e
  else if (e =? "b")%char then Some (ascii_of_nat 8)
  else if (e =? "f")%char then Some (ascii_of_nat 12)
  else if (e =? "n")%char then Some nl
  else if (e =? "r")%char then Some (ascii_of_nat 13)
  else if (e =? "t")%char then Some (ascii_of_nat 9)
  else None.

(** [scanstring] (strict): the body of a string after its opening quote;
    returns the string and what follows the closing quote.  A [\uXXXX]
    escape of a code point from 256 on is outside the model of strings and
    gives [None]. *)
Fixpoint scan_string (s : string) : option (string * string) :=
  match s with
  | EmptyString => None
  | String c r =>
      let n := nat_of_ascii c in
      if (n =? 34)%nat then Some (EmptyString, r)
      else if (n =? 92)%nat then
        match r with
        | String e r' =>
            if (e =? "u")%char then
              match r' with
              | String h1 (String h2 (String h3 (String h4 r''))) =>
                  match hex_val h1, hex_val h2, hex_val h3, hex_val h4 with
                  | Some a, Some b, Some c', Some d =>
                      let code := (a * 4096 + b * 256 + c' * 16 + d)%nat in
                      if (code <? 256)%nat then
                        match scan_string r'' with
                        | Some (t, rest) => Some (String (ascii_of_nat code) t, rest)
                        | None => None
                        end
                      else None
                  | _, _, _, _ => None
                  end
              | _ => None
              end
            else
              match simple_escape e with
              | Some ch =>
                  match scan_string r' with
                  | Some (t, rest) => Some (String ch t, rest)
                  | None => None
                  end
              | None => None
              end
        | EmptyString => None
        end
      else if (n <? 32)%nat then None
      else
        match scan_string r with
        | Some (t, rest) => Some (String c t, rest)
        | None => None
        end
  end.

Fixpoint take_digits (s : string) : string * string :=
  match s with
  | String c r =>
      if is_digit c then let (d, r') := take_digits r in (String c d, r') else (EmptyString, s)
  | EmptyString => (EmptyString, EmptyString)
  end.

(** [-?(?:0|[1-9]\d* )] of [NUMBER_RE] *)
Definition lex_int (s : string) : option (string * string) :=
  let '(sg, s1) :=
    match s with
    | String c r => if (c =? "-")%char then ("-", r) else (EmptyString, s)
    | EmptyString => (EmptyString, EmptyString)
    end in
  match s1 with
  | String c r =>
      if (c =? "0")%char then Some (sg ++ "0", r)
      else if is_digit c then let (ds, r') := take_digits r in Some (sg ++ String c ds, r')
      else None
  | EmptyString => None
  end.

(** [(\.\d+)?] *)
Definition lex_frac (s : string) : string * string :=
  match s with
  | String c r =>
      if (c =? ".")%char then
        match take_digits r with
        | (EmptyString, _) => (EmptyString, s)
        | (ds, r') => (String c ds, r')
        end
      else (EmptyString, s)
  | EmptyString => (EmptyString, EmptyString)
  end.

(** [([eE][-+]?\d+)?] *)
Definition lex_exp (s : string) : string * string :=
  match s with
  | String c r =>
      if (c =? "e")%char || (c =? "E")%char then
        let '(sg, r1) :=
          match r with
          | String c' r' => if (c' =? "+")%char || (c' =? "-")%char then (String c' EmptyString, r') else (EmptyString, r)
          | EmptyString => (EmptyString, EmptyString)
          end in
        match take_digits r1 with
        | (EmptyString, _) => (EmptyString, s)
        | (ds, r2) => (String c (sg ++ ds), r2)
        end
      else (EmptyString, s)
  | EmptyString => (EmptyString, EmptyString)
  end.

(** [NUMBER_RE.match]: integer part, fraction, exponent, rest. *)
Definition lex_number (s : string) : option (string * string * string * string) :=
  match lex_int s with
  | None => None
  | Some (i, r1) =>
      let (f, r2) := lex_frac r1 in
      let (e, r3) := lex_exp r2 in
      Some (i, f, e, r3)
  end.

(** [int(integer)] *)
Definition int_of_token (t : string) : Z :=
  match DecimalString.NilZero.int_of_string t with
  | Some d => Z.of_int d
  | None => 0
  end.

(** [dict(pairs)]: a repeated key keeps its first position and its last value. *)
Definition dict_of_pairs (pairs : list (string * value)) : list (string * value) :=
  dict_merge [] pairs.

(** [scan_once] on a text starting at a value (no leading whitespace), with
    [JSONObject] and [JSONArray] for the containers; [fuel] bounds the depth
    of the recursion. *)
Fixpoint pvalue (fuel : nat) (s : string) {struct fuel} : option (value * string) :=
  match fuel with
  | O => None
  | S f =>
      match s with
      | EmptyString => None
      | String c r =>
          if (c =? dq)%char then
            match scan_string r with Some (t, r') => Some (VStr t, r') | None => None end
          else if (c =? "{")%char then
            match skip_ws r with
            | String c1 r1 =>
                if (c1 =? "}")%char then Some (VDict [], r1)
                else match pmembers f (String c1 r1) [] with
                     | Some (pairs, r2) => Some (VDict (dict_of_pairs pairs), r2)
                     | None => None
                     end
            | EmptyString => None
            end
          else if (c =? "[")%char then
            match skip_ws r with
            | String c1 r1 =>
                if (c1 =? "]")%char then Some (VList [], r1)
                else match pelems f (String c1 r1) [] with
                     | Some (l, r2) => Some (VList l, r2)
                     | None => None
                     end
            | EmptyString => None
            end
          else match strip_prefix "null" s with Some r' => Some (VNull, r') | None =>
               match strip_prefix "true" s with Some r' => Some (VBool true, r') | None =>
               match strip_prefix "false" s with Some r' => Some (VBool false, r') | None =>
               match lex_number s with
               | Some (i, fr, ex, r') =>
                   match fr, ex with
                   | EmptyString, EmptyString => Some (VInt (int_of_token i), r')
                   | _, _ => Some (VFloat (FNum (i ++ fr ++ ex)), r')
                   end
               | None =>
               match strip_prefix "NaN" s with Some r' => Some (VFloat FNaN, r') | None =>
               match strip_prefix "Infinity" s with Some r' => Some (VFloat (FInf false), r') | None =>
               match strip_prefix "-Infinity" s with Some r' => Some (VFloat (FInf true), r') | None =>
               None end end end end end end end
      end
  end
(** The members of an object, from the first key on. *)
with pmembers (fuel : nat) (s : string) (acc : list (string * value)) {struct fuel}
  : option (list (string * value) * string) :=
  match fuel with
  | O => None
  | S f =>
      match s with
      | String c r =>
          if (c =? dq)%char then
            match scan_string r with
            | Some (k, r1) =>
                match skip_ws r1 with
                | String c1 r2 =>
                    if (c1 =? ":")%char then
                      match pvalue f (skip_ws r2) with
                      | Some (v, r3) =>
                          match skip_ws r3 with
                          | String c3 r4 =>
                              if (c3 =? ",")%char then pmembers f (skip_ws r4) (acc ++ [(k, v)])%list
                              else if (c3 =? "}")%char then Some ((acc ++ [(k, v)])%list, r4)
                              else None
                          | EmptyString => None
                          end
                      | None => None
                      end
                    else None
                | EmptyString => None
                end
            | None => None
            end
          else None
      | EmptyString => None
      end
  end
(** The elements of an array, from the first one on. *)
with pelems (fuel : nat) (s : string) (acc : list value) {struct fuel}
  : option (list value * string) :=
  match fuel with
  | O => None
  | S f =>
      match pvalue f s with
      | Some (v, r1) =>
          match skip_ws r1 with
          | String c r2 =>
              if (c =? ",")%char then pelems f (skip_ws r2) (acc ++ [v])%list
              else if (c =? "]")%char then Some ((acc ++ [v])%list, r2)
              else None
          | EmptyString => None
          end
      | None => None
      end
  end.

(** [json.loads]: a value with optional surrounding whitespace. *)
Definition json_loads (s : string) : option value :=
  match pvalue (S (String.length s)) (skip_ws s) with
  | Some (v, r) => match skip_ws r with EmptyString => Some v | _ => None end
  | None => None
  end.

(** *** The Jinja2 environment of [TemplateRenderer]

    [Environment(autoescape=False, trim_blocks=True, lstrip_blocks=True,
    keep_trailing_newline=True)] with [from_string] and [render], for the
    constructs a stored document meets: template data, comments [{# ... #}]
    and variables [{{ name }}].  Every other construct ([{% ... %}],
    whitespace control, expressions other than a plain name, a comment with
    only whitespace before it on its line, a name bound by the environment
    rather than the context) gives [JUnsupported]: the model does not say
    what Jinja2 does with it.  [render(self, *args, **kwargs)] takes the
    context as keyword arguments, so a context key [self] makes the call
    raise [TypeError]. *)

Inductive jtoken : Type :=
| JData (s : string)
| JVar (name : string).

Inductive jlex_result : Type :=
| LOk (toks : list jtoken)
| LSyntaxError (msg : string)
| LUnsupported.

Inductive jinja_result : Type :=
| JOk (out : string)
| JSyntaxError (msg : string)
| JTypeError (msg : string)
| JUnsupported.

(** [newline_re.sub] with [newline_sequence='\n'] *)
Fixpoint normalize_newlines (s : string) : string :=
  match s with
  | EmptyString => EmptyString
  | String c r =>
      if (nat_of_ascii c =? 13)%nat then
        match r with
        | String c' r' =>
            if (nat_of_ascii c' =? 10)%nat then String nl (normalize_newlines r')
            else String nl (normalize_newlines r)
        | EmptyString => String nl EmptyString
        end
      else String c (normalize_newlines r)
  end.

(** The text before and after the first occurrence of [pat] in [s]. *)
Fixpoint find_sub (pat s : string) : option (string * string) :=
  match strip_prefix pat s with
  | Some after => Some (EmptyString, after)
  | None =>
      match s with
      | EmptyString => None
      | String c r =>
          match find_sub pat r with
          | Some (b, a) => Some (String c b, a)
          | None => None
          end
      end
  end.

Fixpoint has_nl (s : string) : bool :=
  match s with
  | EmptyString => false
  | String c r => (nat_of_ascii c =? 10)%nat || has_nl r
  end.

(** [text[text.rfind('\n') + 1:]] *)
Fixpoint last_line (s : string) : string :=
  match s with
  | EmptyString => EmptyString
  | String c r => if has_nl r then last_line r else if (nat_of_ascii c =? 10)%nat then r else s
  end.

Fixpoint all_space (s : string) : bool :=
  match s with
  | EmptyString => true
  | String c r => py_isspace c && all_space r
  end.

(** [lstrip_blocks] would strip the text before a tag. *)
Definition lstrip_applies (data : string) : bool :=
  let t := last_line data in
  match t with EmptyString => false | _ => all_space t end.

Fixpoint ltrim (s : string) : string :=
  match s with
  | EmptyString => EmptyString
  | String c r => if py_isspace c then ltrim r else s
  end.

Definition str_rev (s : string) : string := string_of_list_ascii (rev (list_ascii_of_string s)).

Definition trim (s : string) : string := str_rev (ltrim (str_rev (ltrim s))).

Definition is_name_start (c : ascii) : bool :=
  let n := nat_of_ascii c in
  ((65 <=? n) && (n <=? 90) || (97 <=? n) && (n <=? 122) || (n =? 95))%nat.

Definition is_name_char (c : ascii) : bool := is_name_start c || is_digit c.

Definition is_plain_name (s : string) : bool :=
  match s with
  | EmptyString => false
  | String c r => is_name_start c && forallb is_name_char (list_ascii_of_string r)
  end.

Definition starts_with_ctrl (s : string) : bool :=
  match s with
  | String c _ => (c =? "-")%char || (c =? "+")%char
  | EmptyString => false
  end.

Definition ends_with_ctrl (s : string) : bool := starts_with_ctrl (str_rev s).

Definition flush (data : string) : list jtoken :=
  match data with EmptyString => [] | _ => [JData data] end.

(** The lexer: [data] is the template data since the last tag, [acc] the
    tokens so far, last first.  In the comment state without a [#}] ahead,
    the failure rule [(.)] needs one more character: at the end of the text
    [tokeniter] stops silently, and the comment opener is dropped. *)
Fixpoint jlex (fuel : nat) (s data : string) (acc : list jtoken) : jlex_result :=
  match fuel with
  | O => LUnsupported
  | S f =>
      match s with
      | EmptyString => LOk (rev acc ++ flush data)
      | String c r =>
          match (if (c =? "{")%char then r else EmptyString) with
          | String c' r' =>
              if (c' =? "{")%char then
                match find_sub "}}" r' with
                | Some (inner, after) =>
                    let name := trim inner in
                    if is_plain_name name then jlex f after EmptyString (JVar name :: flush data ++ acc)
                    else LUnsupported
                | None => LUnsupported
                end
              else if (c' =? "%")%char then LUnsupported
              else if (c' =? "#")%char then
                match find_sub "#}" r' with
                | Some (inner, after) =>
                    if starts_with_ctrl r' || ends_with_ctrl inner || lstrip_applies data then LUnsupported
                    else
                      let after' :=
                        match after with
                        | String c2 a2 => if (nat_of_ascii c2 =? 10)%nat then a2 else after
                        | EmptyString => EmptyString
                        end in
                      jlex f after' EmptyString (flush data ++ acc)
                | None =>
                    match r' with
                    | EmptyString => if lstrip_applies data then LUnsupported else LOk (rev acc ++ flush data)
                    | String _ EmptyString =>
                        if starts_with_ctrl r' then LUnsupported else LSyntaxError "Missing end of comment tag"
                    | _ => LSyntaxError "Missing end of comment tag"
                    end
                end
              else jlex f r (data ++ String c EmptyString) acc
          | EmptyString => jlex f r (data ++ String c EmptyString) acc
          end
      end
  end.

(** Names the parser reads as constants or operators, and names the
    template binds itself. *)
Definition jinja_reserved : list string :=
  ["true"; "false"; "none"; "True"; "False"; "None"; "and"; "or"; "not";
   "in"; "is"; "if"; "else"; "self"].

(** [Environment.globals] *)
Definition jinja_globals : list string :=
  ["range"; "dict"; "lipsum"; "cycler"; "joiner"; "namespace"].

(** [Template.render]: a name of the context prints its value, an unknown
    name prints [Undefined], the empty string. *)
Fixpoint jrender (toks : list jtoken) (ctx : list (string * string)) : jinja_result :=
  match toks with
  | [] => JOk EmptyString
  | t :: r =>
      let piece :=
        match t with
        | JData s => Some s
        | JVar n =>
            if existsb (String.eqb n) jinja_reserved then None
            else match dict_get n ctx with
                 | Some v => Some v
                 | None => if existsb (String.eqb n) jinja_globals then None else Some EmptyString
                 end
        end in
      match piece, jrender r ctx with
      | Some p, JOk out => JOk (p ++ out)
      | None, _ => JUnsupported
      | _, e => e
      end
  end.

(** A variable the parser may read otherwise than as a plain name. *)
Definition has_reserved (toks : list jtoken) : bool :=
  existsb (fun t => match t with JVar n => existsb (String.eqb n) jinja_reserved | _ => false end) toks.

(** The [TypeError] of [Template.render] with the keyword arguments [ctx] when [ctx] has the key [self]
    (the text of Python 3.10 and later). *)
Definition render_self_clash : string :=
  "Template.render() got multiple values for argument 'self'".

(** [env.from_string(source).render] with [ctx] as keyword arguments:
    [from_string] parses the whole template before [render] is called. *)
Definition jinja_render (source : string) (ctx : list (string * string)) : jinja_result :=
  let src := normalize_newlines source in
  match jlex (S (String.length src)) src EmptyString [] with
  | LOk toks =>
      if has_reserved toks then JUnsupported
      else if dict_has "self" ctx then JTypeError render_self_clash
      else jrender toks ctx
  | LSyntaxError m => JSyntaxError m
  | LUnsupported => JUnsupported
  end.

(** *** [TemplateRenderer.render_config_template] *)

Inductive render_result : Type :=
| Rendered (v : value)
| RenderValueError (msg : string)
| RenderUnsupported.

Definition render_config_template (config_data : list (string * value))
  (context : list (string * string)) : render_result :=
  let config_json := json_dumps (VDict config_data) in
  match jinja_render config_json context with
  | JOk rendered_json =>
      match json_loads rendered_json with
      | Some rendered_config => Rendered rendered_config
      | None => RenderValueError "Invalid JSON after template rendering"
      end
  | JSyntaxError m => RenderValueError ("Template rendering failed: " ++ m)
  | JTypeError m => RenderValueError ("Template rendering error: " ++ m)
  | JUnsupported => RenderUnsupported
  end.

(** *** [ConfigTemplateProcessor.process_template_request] *)

Definition get_or (k : string) (d : list (string * string)) (dflt : string) : string :=
  match dict_get k d with Some v => v | None => dflt end.

Definition template_context (template_params : list (string * string)) : list (string * string) :=
  let default_context :=
    [("user", get_or "user" template_params "anonymous");
     ("env", get_or "env" template_params "development");
     ("timestamp", get_or "timestamp" template_params EmptyString)] in
  dict_merge default_context template_params.

Definition process_template_request (config_data : list (string * value))
  (template_params : list (string * string)) : render_result :=
  render_config_template config_data (template_context template_params).

(** [has_template_syntax] probes for these markers; a comment opens with
    the third. *)
Fixpoint contains (pat s : string) : bool :=
  match strip_prefix pat s with
  | Some _ => true
  | None => match s with EmptyString => false | String _ r => contains pat r end
  end.

(** The keys of a Python dict are pairwise distinct. *)
Fixpoint nodup_keys {A : Type} (d : list (string * A)) : bool :=
  match d with
  | [] => true
  | (k, _) :: r => negb (existsb (String.eqb k) (map fst r)) && nodup_keys r
  end.

(** ** [validators.py]: the rest of the module *)

(** [config['version'] < 1], reached only for an [int] (a [bool] counts
    as 0 or 1). *)
Definition version_lt_1 (v : value) : bool :=
  match v with VInt z => z <? 1 | VBool b => negb b | _ => false end.

(** [ConfigurationValidator.check_required_fields] *)
Definition check_required_fields (config : list (string * value)) : list string :=
  let errors :=
    match dict_get "version" config with
    | None => ["Missing required field: version"]
    | Some v =>
        if negb (isinstance v TInt) || version_lt_1 v
        then ["Field 'version' must be a positive integer"] else []
    end in
  match dict_get "database" config with
  | None => errors
  | Some (VDict db) =>
      let errors :=
        if dict_has "host" db then errors
        else (errors ++ ["Missing required field: database.host"])%list in
      if dict_has "port" db then errors
      else (errors ++ ["Missing required field: database.port"])%list
  | Some _ => (errors ++ ["Field 'database' must be an object"])%list
  end.

(** [ConfigValidator.validate_required_fields] *)
Definition validate_required_fields (config_data : list (string * value)) : bool :=
  match validate_s REQUIRED_FIELDS_SCHEMA (VDict config_data) with
  | None => true
  | Some _ => false
  end.

Section Validators.
Variable safe_load : string -> yaml_load_result.

(** [YAMLValidator.validate_config] (also [validate_yaml_config]):
    [(is_valid, parsed_data, error_list)]; an exception raised by
    [validator.validate] propagates.  [parse_yaml] returns a document
    whenever it succeeds, so its other results all take the first branch. *)
Definition validate_config (yaml_content : string)
  : pyres (bool * option (list (string * value)) * list verror) :=
  match parse_yaml safe_load yaml_content with
  | (true, Some data, _) =>
      match validate data with
      | Ret (is_valid, schema_errors) => Ret (is_valid, Some data, schema_errors)
      | Raise e => Raise e
      end
  | (_, _, parse_error) =>
      Ret (false, None,
           [VMsg (match parse_error with
                  | Some m => if String.eqb m "" then "Unknown parsing error" else m
                  | None => "Unknown parsing error"
                  end)])
  end.

(** [YAMLValidator.quick_yaml_check] *)
Definition quick_yaml_check (yaml_content : string) : bool :=
  fst (fst (parse_yaml safe_load yaml_content)).

(** ** [api/handlers.py]: creating and reading a configuration *)

(** The error of an [ApiResponse]: ["Validation errors: "] followed by the
    [str] of the errors joined with ["; "], or a message. *)
Inductive vresp_error :=
| ErrValidation (errors : list verror)
| ErrText (m : string).

(** [ApiResponse] of the configuration endpoints: its data is a JSON value. *)
Record value_response := mkVResp {
  vr_data : option value;
  vr_error : option vresp_error;
  vr_status : Z
}.

(** [str(e)] *)
Definition exc_str (e : exc) : string :=
  match e with AttributeError m | DataError m => m end.

Definition internal_error (e : exc) : value_response :=
  mkVResp None (Some (ErrText ("Internal server error: " ++ exc_str e))) 500.

(** [ConfigurationHandler.create_configuration]: the response and the store
    it leaves. *)
Definition create_configuration (d : db) (service yaml_content : string) : value_response * db :=
  match validate_config yaml_content with
  | Raise e => (internal_error e, d)
  | Ret (is_valid, config_data, errors) =>
      if negb is_valid then (mkVResp None (Some (ErrValidation errors)) 422, d)
      else
        match config_data with
        | Some data =>
            match save_configuration d service data with
            | Ret (m, d') =>
                (mkVResp (Some (VDict [("service", VStr service); ("version", m_version m);
                                       ("status", VStr "saved")])) None 201, d')
            | Raise e => (internal_error e, d)
            end
        | None => (internal_error (AttributeError "'NoneType' object has no attribute 'get'"), d)
        end
  end.

End Validators.

(** The message of a missing configuration: [version] is added when truthy. *)
Definition not_found_msg (service : string) (version : option Z) : string :=
  "Configuration not found for service '" ++ service ++ "'" ++
  match version with
  | Some v => if v =? 0 then "" else " version " ++ py_int_repr v
  | None => ""
  end.

(** [ConfigurationHandler.get_configuration]; [None] when the template
    rendering meets a construct outside the model. *)
Definition handler_get_configuration (d : db) (service : string) (version : option Z)
  (use_template : bool) (template_params : option (list (string * string)))
  : option value_response :=
  match get_configuration d service version with
  | None => Some (mkVResp None (Some (ErrText (not_found_msg service version))) 404)
  | Some m =>
      if use_template then
        match process_template_request (m_payload m)
                (match template_params with Some p => p | None => [] end) with
        | Rendered v => Some (mkVResp (Some v) None 200)
        | RenderValueError msg =>
            Some (mkVResp None (Some (ErrText ("Template processing failed: " ++ msg))) 400)
        | RenderUnsupported => None
        end
      else Some (mkVResp (Some (VDict (m_payload m))) None 200)
  end.

(** ** [api/resources.py] *)

(** A query parameter after [_parse_query_params]: one value, or the list
    of the values of a repeated key. *)
Inductive qparam := QStr (s : string) | QList (l : list string).

(** [values[0] if len(values) == 1 else values] *)
Definition qparam_of (values : list string) : qparam :=
  match values with [v] => QStr v | _ => QList values end.

(** [BaseResource._parse_query_params] on [request.args] (decoded). *)
Definition parse_query_params (args : list (string * list string)) : list (string * qparam) :=
  fold_left (fun params kv => dict_set (fst kv) (qparam_of (snd kv)) params) args [].

(** [ConfigResource.render_GET]: [params.get('template') == '1'] *)
Definition query_use_template (params : list (string * qparam)) : bool :=
  match dict_get "template" params with Some (QStr s) => String.eqb s "1" | _ => false end.

(** [ConfigResource.render_GET]: the template parameters, every query
    parameter but [version] and [template]. *)
Definition query_template_params {A : Type} (params : list (string * A)) : list (string * A) :=
  fold_left (fun tp kv =>
               if existsb (String.eqb (fst kv)) ["version"; "template"] then tp
               else dict_set (fst kv) (snd kv) tp)
    params [].

(** [ConfigResource.render_POST] on the decoded body. *)
Definition render_POST (safe_load : string -> yaml_load_result) (d : db) (service body : string)
  : value_response * db :=
  if py_strip_empty body then (mkVResp None (Some (ErrText "Empty request body")) 400, d)
  else create_configuration safe_load d service body.

(** ** [templates/renderer.py]: string templates *)

Inductive string_render_result :=
| SRendered (s : string)
| SRenderValueError (msg : string)
| SRenderTypeError (msg : string)
| SRenderUnsupported.

(** [TemplateRenderer.render_string_template]: only [TemplateError] is
    caught, the [TypeError] of [render] propagates. *)
Definition render_string_template (template_string : string) (context : list (string * string))
  : string_render_result :=
  match jinja_render template_string context with
  | JOk s => SRendered s
  | JSyntaxError m => SRenderValueError ("String template rendering failed: " ++ m)
  | JTypeError m => SRenderTypeError m
  | JUnsupported => SRenderUnsupported
  end.

(** [TemplateRenderer.validate_template_syntax]: [env.parse]; [None] outside
    the modelled constructs ([{{ not }}] lexes but does not parse). *)
Definition validate_template_syntax (template_string : string) : option (bool * option string) :=
  let src := normalize_newlines template_string in
  match jlex (S (String.length src)) src EmptyString [] with
  | LOk toks => if has_reserved toks then None else Some (true, None)
  | LSyntaxError m => Some (false, Some m)
  | LUnsupported => None
  end.

(** The compiled entries of [REQUIRED_FIELDS_SCHEMA] and [BASE_CONFIG_SCHEMA]. *)
Definition REQ_entries : list centry :=
  [(0%nat, false, KLit "version", validate_s (SType TInt));
   (1%nat, true, KType TStr, validate_s (SType TObject))].

Definition BASE_entries : list centry :=
  [(0%nat, false, KLit "version", validate_s VERSION_SCHEMA);
   (1%nat, true, KLit "database", validate_s DATABASE_SCHEMA);
   (2%nat, true, KLit "features", validate_s FEATURES_SCHEMA);
   (3%nat, true, KType TStr, validate_s (SType TObject))].

(** ** Notions used by the statements *)

(** History rows in non-increasing version order. *)
Definition ver_ge (a b : row) : Prop := row_version b <= row_version a.

(** A finite float is carried by its [repr] text: a JSON number with a
    fraction or an exponent. *)
Definition float_text_ok (t : string) : bool :=
  match lex_number t with
  | Some (_, fr, ex, EmptyString) =>
      negb (String.eqb fr EmptyString && String.eqb ex EmptyString)
  | _ => false
  end.

(** A document Python can hold: dict keys pairwise distinct, no NaN. *)
Fixpoint json_doc_ok (v : value) : bool :=
  match v with
  | VFloat (FNum t) => float_text_ok t
  | VFloat FNaN => false
  | VList l => forallb json_doc_ok l
  | VDict kvs => nodup_keys kvs && forallb (fun kv => json_doc_ok (snd kv)) kvs
  | _ => true
  end.

(** A text that cannot continue a number token. *)
Definition num_stop (s : string) : bool :=
  match s with
  | EmptyString => true
  | String c _ =>
      negb (is_digit c || (c =? ".")%char || (c =? "e")%char || (c =? "E")%char
            || (c =? "+")%char || (c =? "-")%char)
  end.

Fixpoint no_cr (s : string) : bool :=
  match s with
  | EmptyString => true
  | String c r => negb (nat_of_ascii c =? 13)%nat && no_cr r
  end.

(** A text that cannot continue a run of digits. *)
Definition digit_stop (s : string) : bool :=
  match s with EmptyString => true | String c _ => negb (is_digit c) end.

(** A value printed at level [lvl] reads back as itself, whatever follows
    that cannot continue a number. *)
Definition parses_back (lvl : nat) (x : value) : Prop :=
  json_doc_ok x = true /\
  forall rest fuel, (String.length (dumps_at lvl x) < fuel)%nat -> num_stop rest = true ->
    pvalue fuel (dumps_at lvl x ++ rest) = Some (x, rest).

(** * Properties *)

(** ** Lemmas on the schema interpreter *)

Lemma insert_by_perm {A} (key : A -> nat) x l : Permutation (insert_by key x l) (x :: l).
Proof.
  induction l as [|y r IH]; simpl; [reflexivity|].
  destruct (key x <=? key y)%nat; [reflexivity|].
  rewrite IH. apply perm_swap.
Qed.

Lemma sort_by_perm {A} (key : A -> nat) l : Permutation (sort_by key l) l.
Proof.
  induction l as [|x r IH]; simpl; [reflexivity|].
  rewrite insert_by_perm. now apply perm_skip.
Qed.

Lemma dict_get_In {A} k (d : list (string * A)) v : dict_get k d = Some v -> In (k, v) d.
Proof.
  induction d as [|[k' v'] r IH]; simpl; [discriminate|].
  destruct (String.eqb_spec k k'); [intros H; inversion H; subst; now left|].
  intros H; right; auto.
Qed.

Lemma In_dict_get_some {A} k (d : list (string * A)) v : In (k, v) d -> exists v', dict_get k d = Some v'.
Proof.
  induction d as [|[k' v'] r IH]; simpl; [tauto|].
  destruct (String.eqb_spec k k'); [eauto|].
  intros [H|H]; [inversion H; congruence|auto].
Qed.

(** A data item whose matching schema value fails makes the item loop fail. *)
Lemma check_items_fail es items cov unm k v i f e :
  In (k, v) items -> first_match es k = Some (i, f) -> f v = Some e ->
  exists e', check_items es items cov unm = inl e'.
Proof.
  revert cov unm.
  induction items as [|[k' v'] r IH]; simpl; [tauto|].
  intros cov unm [H|H] Hm Hf.
  - inversion H; subst. rewrite Hm, Hf. eauto.
  - destruct (first_match es k') as [[i' f']|]; [destruct (f' v')|]; eauto.
Qed.

(** Items that all match the same schema key with a passing value. *)
Lemma check_items_pass es items cov unm j f :
  (forall k v, In (k, v) items -> first_match es k = Some (j, f) /\ f v = None) ->
  exists cov', check_items es items cov unm = inr (cov', unm) /\
               (forall i, In i cov' -> i = j \/ In i cov).
Proof.
  revert cov.
  induction items as [|[k v] r IH]; simpl; intros cov H.
  - exists cov; split; auto.
  - destruct (H k v (or_introl eq_refl)) as [Hm Hf]. rewrite Hm, Hf.
    destruct (IH (j :: cov)) as [cov' [E Hc]]; [intros; apply H; auto|].
    exists cov'; split; auto.
    intros i Hi; destruct (Hc i Hi) as [->|[->|Hin]]; auto.
Qed.

(** Without a [version] key, [REQUIRED_FIELDS_SCHEMA] reports exactly the
    missing key. *)
Lemma required_missing_version d :
  dict_get "version" d = None ->
  validate_s REQUIRED_FIELDS_SCHEMA (VDict d) = Some (EMissing [KLit "version"]).
Proof.
  intros Hv.
  set (es := [(0%nat, false, KLit "version", validate_s (SType TInt));
              (1%nat, true, KType TStr, validate_s (SType TObject))] : list centry).
  change (validate_s REQUIRED_FIELDS_SCHEMA (VDict d)) with (check_dict es (VDict d)).
  edestruct (check_items_pass (sort_by centry_prio es)
    (sort_by is_dict_value d) [] [] 1%nat (validate_s (SType TObject))) as [cov [E Hc]].
  - intros k v Hin. apply (Permutation_in _ (sort_by_perm _ _)) in Hin.
    split; [|destruct v; reflexivity].
    cbn [first_match key_matches isinstance es sort_by insert_by centry_prio key_priority].
    cbn -[validate_s String.eqb].
    destruct (String.eqb_spec "version" k); [|reflexivity].
    subst. destruct (In_dict_get_some _ _ _ Hin). congruence.
  - unfold check_dict. rewrite E.
    cbn -[validate_s].
    replace (existsb (fun m : nat => match m with 0%nat => true | S _ => false end) cov) with false.
    + reflexivity.
    + symmetry. apply Bool.not_true_iff_false. intros Hex.
      apply existsb_exists in Hex as [m [Hm Hm0]].
      destruct (Hc m Hm) as [->|[]]; discriminate.
Qed.

Lemma features_schema_fails fv :
  features_bad fv = true -> exists e, validate_s FEATURES_SCHEMA fv = Some e.
Proof.
  set (es := [(0%nat, false, KType TStr, validate_s FEATURE_VALUE_SCHEMA)] : list centry).
  change (validate_s FEATURES_SCHEMA fv) with (check_dict es fv).
  destruct fv as [| | | | | |kvs]; cbn [features_bad]; intros H; try (eexists; reflexivity).
  apply existsb_exists in H as [[k bv] [Hin Hbad]].
  unfold check_dict.
  edestruct (check_items_fail (sort_by centry_prio es) (sort_by is_dict_value kvs) [] []
               k bv 0%nat (validate_s FEATURE_VALUE_SCHEMA)) as [e' E].
  - apply (Permutation_in _ (Permutation_sym (sort_by_perm _ _))). exact Hin.
  - reflexivity.
  - destruct bv; cbn in Hbad; try discriminate; reflexivity.
  - rewrite E. eauto.
Qed.

(** With a bad [features] value, [BASE_CONFIG_SCHEMA] fails (possibly on an
    earlier key). *)
Lemma base_features_fails d fv :
  dict_get "features" d = Some fv -> features_bad fv = true ->
  exists e, validate_s BASE_CONFIG_SCHEMA (VDict d) = Some e.
Proof.
  intros Hf Hbad.
  set (es := [(0%nat, false, KLit "version", validate_s VERSION_SCHEMA);
              (1%nat, true, KLit "database", validate_s DATABASE_SCHEMA);
              (2%nat, true, KLit "features", validate_s FEATURES_SCHEMA);
              (3%nat, true, KType TStr, validate_s (SType TObject))] : list centry).
  change (validate_s BASE_CONFIG_SCHEMA (VDict d)) with (check_dict es (VDict d)).
  destruct (features_schema_fails fv Hbad) as [e He].
  unfold check_dict.
  edestruct (check_items_fail (sort_by centry_prio es) (sort_by is_dict_value d) [] []
               "features" fv 2%nat (validate_s FEATURES_SCHEMA)) as [e' E].
  - apply (Permutation_in _ (Permutation_sym (sort_by_perm _ _))). now apply dict_get_In.
  - reflexivity.
  - exact He.
  - rewrite E. eauto.
Qed.

(** Appending to a non-empty error list keeps it non-empty. *)
Lemma app_cons_not_nil {A} (x : A) l r : ((x :: l) ++ r)%list <> [].
Proof. discriminate. Qed.

(** ** C1: a missing [version] *)

(** C1 (counterexample): the empty document, which has no [version] field,
    is reported invalid, with the missing-[version] schema error. *)
Lemma C1_empty_document_invalid :
  validate [] = Ret (false, [VSchemaError (EMissing [KLit "version"])]).
Proof. reflexivity. Qed.

(** C1 (amended): for every document without a [version] field, the
    validator either reports it invalid with the missing-[version] schema
    error first in the error list, or raises (when [database] is present but
    is not an object). *)
Theorem C1_missing_version_reported (d : list (string * value)) :
  dict_get "version" d = None ->
  match validate d with
  | Ret (is_valid, errors) =>
      is_valid = false /\ hd_error errors = Some (VSchemaError (EMissing [KLit "version"]))
  | Raise _ => exists v, dict_get "database" d = Some v /\ isinstance v TDict = false
  end.
Proof.
  intros Hv.
  unfold validate, get_validation_errors, validate_config_schema.
  rewrite (required_missing_version d Hv).
  destruct (dict_get "database" d) as [v|] eqn:Hdb.
  - destruct v as [| | | | | |db]; try (eexists; split; [reflexivity|reflexivity]).
    destruct (negb (opt_truthy (dict_get "host" db)) || _);
      destruct (negb (opt_isinstance (dict_get "port" _) TInt) || _); cbn; auto.
  - cbn. auto.
Qed.

Lemma C1_missing_version_reported_witness :
  dict_get "version" C1_sample = None /\
  match validate C1_sample with
  | Ret (is_valid, errors) =>
      is_valid = false /\ hd_error errors = Some (VSchemaError (EMissing [KLit "version"]))
  | Raise _ => exists v, dict_get "database" C1_sample = Some v /\ isinstance v TDict = false
  end.
Proof.
  split; [reflexivity|].
  apply (C1_missing_version_reported C1_sample). reflexivity.
Defined.

(** ** C2: scenario B *)

(** C2: validating [{"database":{"host":"localhost","port":99999}}] gives
    [valid = false] with both the missing-[version] schema error and the
    port-range error, in one outcome. *)
Theorem C2_scenario_B :
  validate [("database", VDict [("host", VStr "localhost"); ("port", VInt 99999)])]
  = Ret (false, [VSchemaError (EMissing [KLit "version"]);
                 VMsg "database.port must be an integer between 1 and 65535"]).
Proof. reflexivity. Qed.

(** ** C4: the [features] rule *)

(** C4 (counterexample): [{"version": 1, "features": 5}] has a [features]
    value that is not an object, and the validator reports it valid: the
    full schema is only checked when [database] is present. *)
Lemma C4_features_unchecked_without_database :
  features_bad (VInt 5) = true /\
  validate [("version", VInt 1); ("features", VInt 5)] = Ret (true, []).
Proof. split; reflexivity. Qed.

(** C4 (amended): when the document also has a [database] object, a bad
    [features] value makes the validator report the document invalid, with
    a non-empty error list. *)
Theorem C4_bad_features_with_database (d db : list (string * value)) (fv : value) :
  dict_get "features" d = Some fv -> features_bad fv = true ->
  dict_get "database" d = Some (VDict db) ->
  exists errors, validate d = Ret (false, errors) /\ errors <> [].
Proof.
  intros Hf Hbad Hdb.
  assert (Hs : exists e, validate_config_schema d = Some e).
  { unfold validate_config_schema.
    destruct (validate_s REQUIRED_FIELDS_SCHEMA (VDict d)) as [e|]; [eauto|].
    unfold dict_has. rewrite Hdb. exact (base_features_fails d fv Hf Hbad). }
  destruct Hs as [e He].
  unfold validate, get_validation_errors. rewrite He, Hdb.
  destruct (negb (opt_truthy (dict_get "host" db)) || _);
    destruct (negb (opt_isinstance (dict_get "port" db) TInt) || _);
    cbn; eexists; split; try reflexivity; discriminate.
Qed.

Lemma C4_bad_features_with_database_witness :
  dict_get "features" [("version", VInt 1);
                       ("database", VDict [("host", VStr "localhost"); ("port", VInt 5432)]);
                       ("features", VInt 5)] = Some (VInt 5) /\
  features_bad (VInt 5) = true /\
  exists errors,
    validate [("version", VInt 1);
              ("database", VDict [("host", VStr "localhost"); ("port", VInt 5432)]);
              ("features", VInt 5)] = Ret (false, errors) /\ errors <> [].
Proof.
  split; [reflexivity|]. split; [reflexivity|].
  apply (C4_bad_features_with_database _ [("host", VStr "localhost"); ("port", VInt 5432)] (VInt 5));
    reflexivity.
Defined.

(** ** C8: the parser's error kinds *)

(** C8: an empty or whitespace-only input fails with ["Empty YAML content"];
    an input that loads to a value that is not a mapping fails with ["YAML
    must represent a dictionary/object"]; no document is returned in either
    case. *)
Theorem C8_parse_yaml_errors (safe_load : string -> yaml_load_result) (s : string) :
  (py_strip_empty s = true ->
   parse_yaml safe_load s = (false, None, Some "Empty YAML content")) /\
  (forall v, py_strip_empty s = false -> safe_load s = YLoaded v -> isinstance v TDict = false ->
   parse_yaml safe_load s = (false, None, Some "YAML must represent a dictionary/object")).
Proof.
  split.
  - intros H. unfold parse_yaml. rewrite H, orb_true_r. reflexivity.
  - intros v H Hl Hd. unfold parse_yaml. rewrite H, orb_false_r.
    destruct (String.eqb_spec s "") as [->|_]; [discriminate|].
    rewrite Hl. destruct v; try reflexivity; discriminate.
Qed.

Lemma C8_parse_yaml_errors_witness :
  (py_strip_empty "  " = true /\
   parse_yaml (fun _ => YLoaded (VInt 5)) "  " = (false, None, Some "Empty YAML content")) /\
  (py_strip_empty "5" = false /\ (fun _ : string => YLoaded (VInt 5)) "5" = YLoaded (VInt 5) /\
   isinstance (VInt 5) TDict = false /\
   parse_yaml (fun _ => YLoaded (VInt 5)) "5"
   = (false, None, Some "YAML must represent a dictionary/object")).
Proof.
  split.
  - split; [reflexivity|]. apply (proj1 (C8_parse_yaml_errors (fun _ => YLoaded (VInt 5)) "  ")).
    reflexivity.
  - split; [reflexivity|]. split; [reflexivity|]. split; [reflexivity|].
    apply (proj2 (C8_parse_yaml_errors (fun _ => YLoaded (VInt 5)) "5") (VInt 5));
      reflexivity.
Defined.

(** ** Lemmas on the store *)

Lemma dict_get_set {A} k (v : A) d : dict_get k (dict_set k v d) = Some v.
Proof.
  induction d as [|[k' v'] r IH]; simpl.
  - now rewrite String.eqb_refl.
  - destruct (String.eqb_spec k k') as [->|Hne]; simpl.
    + now rewrite String.eqb_refl.
    + apply String.eqb_neq in Hne. now rewrite Hne.
Qed.

Lemma fold_max_ge (rs : list row) m :
  m <= fold_left (fun m r' => Z.max m (row_version r')) rs m /\
  (forall r, In r rs -> row_version r <= fold_left (fun m r' => Z.max m (row_version r')) rs m).
Proof.
  revert m; induction rs as [|r rs IH]; simpl; intros m; [split; [lia|tauto]|].
  destruct (IH (Z.max m (row_version r))) as [H1 H2]. split; [lia|].
  intros r' [<-|Hin]; [lia|auto].
Qed.

Lemma fold_max_in (rs : list row) m :
  fold_left (fun m r' => Z.max m (row_version r')) rs m = m \/
  exists r, In r rs /\ fold_left (fun m r' => Z.max m (row_version r')) rs m = row_version r.
Proof.
  revert m; induction rs as [|r rs IH]; simpl; intros m; [auto|].
  destruct (IH (Z.max m (row_version r))) as [H|[r' [Hin H]]].
  - rewrite H. destruct (Z.max_spec m (row_version r)) as [[_ ->]|[_ ->]]; eauto.
  - eauto.
Qed.

(** [q_max_version] is 0 without rows, otherwise the largest version. *)
Lemma q_max_version_spec d service :
  (rows_of service (db_rows d) = [] -> q_max_version d service = 0) /\
  (rows_of service (db_rows d) <> [] ->
   (exists r, In r (rows_of service (db_rows d)) /\ row_version r = q_max_version d service) /\
   (forall r, In r (rows_of service (db_rows d)) -> row_version r <= q_max_version d service)).
Proof.
  unfold q_max_version. destruct (rows_of service (db_rows d)) as [|r rs]; [split; [auto|tauto]|].
  split; [discriminate|intros _].
  destruct (fold_max_ge rs (row_version r)) as [H1 H2]. split.
  - destruct (fold_max_in rs (row_version r)) as [H|[r' [Hin H]]].
    + exists r; split; [now left|auto].
    + exists r'; split; [now right|auto].
  - intros r' [<-|Hin]; auto.
Qed.

Lemma insert_desc_perm x l : Permutation (insert_desc x l) (x :: l).
Proof.
  induction l as [|y r IH]; simpl; [reflexivity|].
  destruct (row_version y <=? row_version x); [reflexivity|].
  rewrite IH. apply perm_swap.
Qed.

Lemma sort_desc_perm l : Permutation (sort_desc l) l.
Proof.
  induction l as [|x r IH]; simpl; [reflexivity|].
  rewrite insert_desc_perm. now apply perm_skip.
Qed.

Lemma insert_desc_hd a x l :
  HdRel ver_ge a l -> ver_ge a x -> HdRel ver_ge a (insert_desc x l).
Proof.
  destruct l as [|y r]; simpl; intros H Hx; [now constructor|].
  destruct (row_version y <=? row_version x); constructor; auto.
  now inversion H.
Qed.

Lemma insert_desc_sorted x l : Sorted ver_ge l -> Sorted ver_ge (insert_desc x l).
Proof.
  induction l as [|y r IH]; simpl; intros H; [repeat constructor|].
  destruct (row_version y <=? row_version x) eqn:E.
  - constructor; [exact H|]. constructor. unfold ver_ge. apply Z.leb_le in E. exact E.
  - apply Z.leb_gt in E. inversion H; subst.
    constructor; [auto|]. apply insert_desc_hd; [assumption|]. unfold ver_ge. lia.
Qed.

Lemma sort_desc_sorted l : Sorted ver_ge (sort_desc l).
Proof.
  induction l as [|x r IH]; simpl; [constructor|]. now apply insert_desc_sorted.
Qed.

(** The head of a list sorted by [ver_ge] has the largest version. *)
Lemma sorted_head_max r l : Sorted ver_ge (r :: l) -> forall r', In r' l -> row_version r' <= row_version r.
Proof.
  intros H. apply Sorted_StronglySorted in H.
  - inversion H as [|? ? _ Hall]; subst. intros r' Hin.
    rewrite Forall_forall in Hall. exact (Hall r' Hin).
  - intros a b c Hab Hbc. unfold ver_ge in *. lia.
Qed.

Lemma rows_of_In service rows r : In r (rows_of service rows) <-> In r rows /\ row_service r = service.
Proof.
  unfold rows_of. rewrite filter_In. split.
  - intros [H1 H2]. apply String.eqb_eq in H2. auto.
  - intros [H1 H2]. split; [auto|]. now apply String.eqb_eq.
Qed.

(** ** C3: version assignment on save *)

(** C3 (counterexample): a document whose [version] field is present with
    value [null] does not keep it: save assigns [max + 1] (here 1). *)
Lemma C3_null_version_replaced :
  dict_has "version" [("version", VNull)] = true /\
  save_configuration empty_db "auth" [("version", VNull)]
  = Ret (mkModel 1 "auth" (VInt 1) [("version", VInt 1)] 0,
         mkDb [mkRow 1 "auth" 1 [("version", VInt 1)] 0] 2 1).
Proof. split; reflexivity. Qed.

(** C3 (amended): the maximum read from the store is 0 without rows and the
    largest stored version otherwise; when [version] is absent or [null],
    save assigns [max + 1], writes it into the persisted payload and returns
    it; when the caller supplies an integer [version], save stores it as-is
    whatever rows exist (no duplicate check); the returned version always
    equals the payload's [version]. *)
Theorem C3_save_assigns_version (d : db) (service : string) (payload : list (string * value)) :
  ((rows_of service (db_rows d) = [] -> q_max_version d service = 0) /\
   (forall r, In r (rows_of service (db_rows d)) -> row_version r <= q_max_version d service) /\
   (rows_of service (db_rows d) <> [] ->
    exists r, In r (rows_of service (db_rows d)) /\ row_version r = q_max_version d service)) /\
  match dict_get "version" payload with
  | None | Some VNull =>
      exists m d', save_configuration d service payload = Ret (m, d') /\
        m_version m = VInt (q_max_version d service + 1) /\
        m_payload m = dict_set "version" (VInt (q_max_version d service + 1)) payload /\
        dict_get "version" (m_payload m) = Some (m_version m) /\
        db_rows d' = (db_rows d ++ [mkRow (m_id m) service (q_max_version d service + 1)
                                            (m_payload m) (m_created_at m)])%list
  | Some (VInt z) =>
      exists m d', save_configuration d service payload = Ret (m, d') /\
        m_version m = VInt z /\ m_payload m = payload /\
        dict_get "version" (m_payload m) = Some (m_version m) /\
        db_rows d' = (db_rows d ++ [mkRow (m_id m) service z payload (m_created_at m)])%list
  | Some v =>
      forall m d', save_configuration d service payload = Ret (m, d') ->
        m_version m = v /\ m_payload m = payload /\
        dict_get "version" (m_payload m) = Some (m_version m)
  end.
Proof.
  split.
  - destruct (q_max_version_spec d service) as [H0 H1].
    split; [exact H0|]. split.
    + intros r Hin. assert (Hne : rows_of service (db_rows d) <> []) by (intros E; rewrite E in Hin; exact Hin).
      exact (proj2 (H1 Hne) r Hin).
    + intros Hne. exact (proj1 (H1 Hne)).
  - unfold save_configuration.
    destruct (dict_get "version" payload) as [v|] eqn:Hv.
    + destruct v; cbn;
        try (intros m d' H; discriminate H);
        try (do 2 eexists; split; [reflexivity|]; cbn; repeat split; try reflexivity;
             first [apply dict_get_set | exact Hv]).
    + cbn. do 2 eexists; split; [reflexivity|]; cbn; repeat split; try reflexivity.
      apply dict_get_set.
Qed.

(** ** C6: reading a configuration *)

(** C6: without a version, [get] returns the record with the largest version
    of the service (absent only when the service has no rows); with a
    version, it returns a record of exactly that (service, version), or
    absent exactly when there is none.  [get] is total: it never fails. *)
Theorem C6_get_configuration (d : db) (service : string) (version : option Z) :
  match version with
  | None =>
      match get_configuration d service None with
      | None => rows_of service (db_rows d) = []
      | Some m =>
          exists r, In r (db_rows d) /\ row_service r = service /\ m = model_of_row r /\
            forall r', In r' (db_rows d) -> row_service r' = service -> row_version r' <= row_version r
      end
  | Some v =>
      match get_configuration d service (Some v) with
      | None => forall r, In r (db_rows d) -> row_service r = service -> row_version r <> v
      | Some m =>
          exists r, In r (db_rows d) /\ row_service r = service /\ row_version r = v /\
            m = model_of_row r
      end
  end.
Proof.
  unfold get_configuration.
  destruct version as [v|].
  - destruct (filter (fun r => row_version r =? v) (rows_of service (db_rows d))) as [|r rest] eqn:E.
    + intros r Hin Hs Heq.
      assert (Hf : In r (filter (fun r => row_version r =? v) (rows_of service (db_rows d)))).
      { apply filter_In. split; [apply rows_of_In; auto|]. now apply Z.eqb_eq. }
      rewrite E in Hf. exact Hf.
    + assert (Hin : In r (r :: rest)) by (now left).
      rewrite <- E in Hin. apply filter_In in Hin as [Hin Hv].
      apply rows_of_In in Hin as [Hin Hs]. apply Z.eqb_eq in Hv.
      exists r. auto.
  - pose proof (sort_desc_perm (rows_of service (db_rows d))) as Hp.
    pose proof (sort_desc_sorted (rows_of service (db_rows d))) as Hs.
    destruct (sort_desc (rows_of service (db_rows d))) as [|r rest] eqn:E; cbn.
    + apply Permutation_nil. now apply Permutation_sym.
    + assert (Hin : In r (rows_of service (db_rows d)))
        by (apply (Permutation_in _ Hp); now left).
      apply rows_of_In in Hin as [Hin Hsv].
      exists r. split; [auto|]. split; [auto|]. split; [reflexivity|].
      intros r' Hin' Hs'.
      assert (Hr' : In r' (r :: rest))
        by (apply (Permutation_in _ (Permutation_sym Hp)); now apply rows_of_In).
      destruct Hr' as [<-|Hr']; [lia|].
      exact (sorted_head_max r rest Hs r' Hr').
Qed.

(** ** C7: the store's history *)

Lemma sorted_map_items l :
  Sorted ver_ge l -> Sorted (fun a b => h_version b <= h_version a) (map item_of_row l).
Proof.
  induction 1 as [|x l Hl IH Hhd]; cbn; constructor; [exact IH|].
  destruct Hhd; cbn; constructor. exact H.
Qed.

(** C7 (counterexample): two saves of [version: 1] for one service give a
    history whose two entries share version 1, so it is not strictly
    descending. *)
Lemma C7_duplicate_versions_not_strict :
  exists d,
    save_all empty_db [("auth", [("version", VInt 1)]); ("auth", [("version", VInt 1)])] = Ret d /\
    get_configuration_history d "auth" = [mkItem 1 0; mkItem 1 1] /\
    ~ Sorted (fun a b => h_version b < h_version a) (get_configuration_history d "auth").
Proof.
  eexists. split; [reflexivity|]. split; [reflexivity|].
  cbn. intros H. inversion H as [|? ? _ Hhd]; subst.
  inversion Hhd as [|? ? Hlt]; subst. cbn in Hlt. lia.
Qed.

(** C7 (amended): the history of a service is ordered by version, largest
    first, with equal versions possible (descending, not strictly); it lists
    exactly the service's rows; it is empty, not an error, for a service
    without rows. *)
Theorem C7_history_descending (d : db) (service : string) :
  Sorted (fun a b => h_version b <= h_version a) (get_configuration_history d service) /\
  Permutation (get_configuration_history d service) (map item_of_row (rows_of service (db_rows d))) /\
  (rows_of service (db_rows d) = [] -> get_configuration_history d service = []).
Proof.
  unfold get_configuration_history. split; [|split].
  - apply sorted_map_items, sort_desc_sorted.
  - apply Permutation_map, sort_desc_perm.
  - intros E. rewrite E. reflexivity.
Qed.

(** ** C10: the history endpoint on an unknown service *)

(** C10: for a service without stored rows, the store's history is empty
    and the handler turns it into a 404 error response with the message "No
    configuration history found for service '...'" and no data. *)
Theorem C10_empty_history_404 (d : db) (service : string) :
  rows_of service (db_rows d) = [] ->
  get_configuration_history d service = [] /\
  handler_get_configuration_history d service
  = mkResp None (Some ("No configuration history found for service '" ++ service ++ "'")) 404.
Proof.
  intros E. unfold handler_get_configuration_history, get_configuration_history.
  rewrite E. split; reflexivity.
Qed.

Lemma C10_empty_history_404_witness :
  rows_of "auth" (db_rows empty_db) = [] /\
  get_configuration_history empty_db "auth" = [] /\
  handler_get_configuration_history empty_db "auth"
  = mkResp None (Some ("No configuration history found for service '" ++ "auth" ++ "'")) 404.
Proof.
  split; [reflexivity|]. apply C10_empty_history_404. reflexivity.
Defined.

(** ** Lemmas on the template context *)

Lemma dict_get_set_other {A} k k' (v : A) d :
  k <> k' -> dict_get k (dict_set k' v d) = dict_get k d.
Proof.
  intros Hne. induction d as [|[k2 v2] r IH]; simpl.
  - apply String.eqb_neq in Hne. now rewrite Hne.
  - destruct (String.eqb_spec k' k2) as [->|Hne2]; simpl.
    + apply String.eqb_neq in Hne. now rewrite Hne.
    + now rewrite IH.
Qed.

Lemma dict_get_notin {A} k (d : list (string * A)) :
  ~ In k (map fst d) -> dict_get k d = None.
Proof.
  induction d as [|[k' v'] r IH]; simpl; intros Hn; [reflexivity|].
  destruct (String.eqb_spec k k') as [->|_]; [tauto|].
  apply IH. tauto.
Qed.

Lemma dict_get_merge {A} k (a b : list (string * A)) :
  NoDup (map fst b) ->
  dict_get k (dict_merge a b) =
  match dict_get k b with Some v => Some v | None => dict_get k a end.
Proof.
  unfold dict_merge. revert a.
  induction b as [|[k' v'] r IH]; intros a Hnd; simpl; [reflexivity|].
  inversion Hnd as [|? ? Hnin Hnd']; subst.
  rewrite (IH _ Hnd').
  destruct (String.eqb_spec k k') as [->|Hne].
  - rewrite (dict_get_notin _ _ Hnin). apply dict_get_set.
  - destruct (dict_get k r); [reflexivity|]. now apply dict_get_set_other.
Qed.

Lemma nodup_keys_NoDup {A} (d : list (string * A)) :
  nodup_keys d = true -> NoDup (map fst d).
Proof.
  induction d as [|[k v] r IH]; simpl; intros H; [constructor|].
  apply andb_prop in H as [H1 H2]. constructor; [|now apply IH].
  intros Hin. apply negb_true_iff in H1.
  assert (existsb (String.eqb k) (map fst r) = true) as Hc.
  { apply existsb_exists. exists k. split; [exact Hin|apply String.eqb_refl]. }
  congruence.
Qed.

(** C9: the context handed to the renderer is the caller's parameters over
    the defaults [user = "anonymous"], [env = "development"] and
    [timestamp = ""]: a key the caller supplies takes the caller's value,
    any other key takes its default, and no other key is bound.  In
    particular rendering [{"welcome_message": "Hello {{ user }}!"}] with the
    parameter [user = "alice"] gives [{"welcome_message": "Hello alice!"}]. *)
Theorem C9_context_merge (template_params : list (string * string))
  (Hnd : nodup_keys template_params = true) :
  (forall k, dict_get k (template_context template_params) =
     match dict_get k template_params with
     | Some v => Some v
     | None => dict_get k [("user", "anonymous"); ("env", "development"); ("timestamp", EmptyString)]
     end) /\
  process_template_request [("welcome_message", VStr "Hello {{ user }}!")] [("user", "alice")] =
  Rendered (VDict [("welcome_message", VStr "Hello alice!")]).
Proof.
  split; [|vm_compute; reflexivity].
  intros k. unfold template_context. rewrite (dict_get_merge _ _ _ (nodup_keys_NoDup _ Hnd)).
  destruct (dict_get k template_params) eqn:E; [reflexivity|].
  unfold get_or. simpl.
  destruct (String.eqb_spec k "user") as [->|_]; [now rewrite E|].
  destruct (String.eqb_spec k "env") as [->|_]; [now rewrite E|].
  destruct (String.eqb_spec k "timestamp") as [->|_]; [now rewrite E|].
  reflexivity.
Qed.

Lemma C9_context_merge_witness :
  nodup_keys [("user", "bob"); ("env", "prod")] = true /\
  dict_get "timestamp" (template_context [("user", "bob"); ("env", "prod")]) = Some EmptyString.
Proof.
  split; [reflexivity|].
  destruct (C9_context_merge [("user", "bob"); ("env", "prod")] eq_refl) as [Hk _].
  rewrite Hk. reflexivity.
Defined.

(** C5 (counterexample): the document [{"a": "{# c #}"}] holds neither
    [{{] nor [{%], yet rendering it with the empty context drops the Jinja2
    comment and gives [{"a": ""}]. *)
Lemma C5_comment_not_round_trip :
  contains "{{" (json_dumps (VDict [("a", VStr "{# c #}")])) = false /\
  contains "{%" (json_dumps (VDict [("a", VStr "{# c #}")])) = false /\
  render_config_template [("a", VStr "{# c #}")] [] = Rendered (VDict [("a", VStr EmptyString)]).
Proof. vm_compute. repeat split. Qed.

(** ** Lemmas on the renderer *)

Section Renderer.
Local Open Scope nat_scope.

Lemma sapp_assoc (a b c : string) : (a ++ b) ++ c = a ++ (b ++ c).
Proof. induction a; simpl; congruence. Qed.

Lemma sapp_nil_r (a : string) : a ++ EmptyString = a.
Proof. induction a; simpl; congruence. Qed.

Lemma slength_app (a b : string) : String.length (a ++ b) = (String.length a + String.length b)%nat.
Proof. induction a; simpl; congruence. Qed.



Lemma num_stop_digit s : num_stop s = true -> digit_stop s = true.
Proof.
  destruct s as [|c r]; simpl; [auto|].
  destruct (is_digit c); simpl; auto.
Qed.

Lemma take_digits_app s rest :
  digit_stop rest = true ->
  take_digits (s ++ rest) = let (d, r) := take_digits s in (d, r ++ rest).
Proof.
  intros Hs. induction s as [|c s IH]; simpl.
  - destruct rest as [|c r]; simpl in *; [reflexivity|].
    destruct (is_digit c); [discriminate|reflexivity].
  - destruct (is_digit c); [|reflexivity].
    rewrite IH. destruct (take_digits s); reflexivity.
Qed.

Lemma take_digits_concat s d r : take_digits s = (d, r) -> s = d ++ r.
Proof.
  revert d r. induction s as [|c s IH]; simpl; intros d r H.
  - now inversion H.
  - destruct (is_digit c).
    + destruct (take_digits s) as [d' r'] eqn:E. inversion H; subst.
      simpl. f_equal. now apply IH.
    + now inversion H.
Qed.

Lemma lex_frac_app s rest :
  num_stop rest = true ->
  lex_frac (s ++ rest) = let (f, r) := lex_frac s in (f, r ++ rest).
Proof.
  intros Hs. pose proof (num_stop_digit _ Hs) as Hd.
  destruct s as [|c s]; simpl.
  - destruct rest as [|c r]; simpl in *; [reflexivity|].
    destruct (c =? ".")%char; [|reflexivity].
    rewrite orb_true_r in Hs. simpl in Hs. discriminate.
  - destruct (c =? ".")%char; [|reflexivity].
    rewrite (take_digits_app _ _ Hd).
    destruct (take_digits s) as [[|d ds] r]; reflexivity.
Qed.

Lemma lex_exp_app s rest :
  num_stop rest = true ->
  lex_exp (s ++ rest) = let (e, r) := lex_exp s in (e, r ++ rest).
Proof.
  intros Hs. pose proof (num_stop_digit _ Hs) as Hd.
  destruct s as [|c s]; simpl.
  - destruct rest as [|c r]; simpl in *; [reflexivity|].
    destruct ((c =? "e")%char || (c =? "E")%char) eqn:E; [|reflexivity].
    exfalso. destruct (c =? "e")%char, (c =? "E")%char; simpl in *;
      rewrite ?orb_true_r in Hs; simpl in Hs; try discriminate.
  - destruct ((c =? "e")%char || (c =? "E")%char); [|reflexivity].
    destruct s as [|c' s']; simpl.
    + destruct rest as [|c2 r2]; simpl in *; [reflexivity|].
      destruct ((c2 =? "+")%char || (c2 =? "-")%char) eqn:E2.
      * exfalso. destruct (c2 =? "+")%char, (c2 =? "-")%char; simpl in *;
          rewrite ?orb_true_r in Hs; simpl in Hs; try discriminate.
      * destruct (is_digit c2) eqn:D; simpl in Hd; [discriminate|].
        simpl. now rewrite D.
    + destruct ((c' =? "+")%char || (c' =? "-")%char).
      * rewrite (take_digits_app _ _ Hd).
        destruct (take_digits s') as [[|d ds] r]; reflexivity.
      * change (take_digits (String c' (s' ++ rest))) with (take_digits (String c' s' ++ rest)).
        rewrite (take_digits_app _ _ Hd).
        destruct (take_digits (String c' s')) as [[|d ds] r]; reflexivity.
Qed.

Lemma lex_int_app s rest i r :
  lex_int s = Some (i, r) -> num_stop rest = true ->
  lex_int (s ++ rest) = Some (i, r ++ rest).
Proof.
  intros H Hs. pose proof (num_stop_digit _ Hs) as Hd.
  unfold lex_int in *.
  destruct s as [|c s]; [discriminate|]. simpl.
  destruct (c =? "-")%char.
  - destruct s as [|c' s']; [discriminate|]. simpl.
    destruct (c' =? "0")%char; [now inversion H|].
    destruct (is_digit c'); [|discriminate].
    rewrite (take_digits_app _ _ Hd).
    destruct (take_digits s'). now inversion H.
  - destruct (c =? "0")%char; [now inversion H|].
    destruct (is_digit c); [|discriminate].
    rewrite (take_digits_app _ _ Hd).
    destruct (take_digits s). now inversion H.
Qed.

Lemma lex_number_app s rest i f e r :
  lex_number s = Some (i, f, e, r) -> num_stop rest = true ->
  lex_number (s ++ rest) = Some (i, f, e, r ++ rest).
Proof.
  unfold lex_number. intros H Hs.
  destruct (lex_int s) as [[i' r1]|] eqn:E1; [|discriminate].
  rewrite (lex_int_app _ _ _ _ E1 Hs).
  rewrite (lex_frac_app _ _ Hs).
  destruct (lex_frac r1) as [f' r2].
  rewrite (lex_exp_app _ _ Hs).
  destruct (lex_exp r2) as [e' r3].
  now inversion H.
Qed.

Lemma lex_int_concat s i r : lex_int s = Some (i, r) -> s = i ++ r.
Proof.
  unfold lex_int. intros H.
  destruct s as [|c s]; [discriminate|].
  destruct (Ascii.eqb_spec c "-") as [->|_].
  - destruct s as [|c' s']; [discriminate|].
    destruct (Ascii.eqb_spec c' "0") as [->|_]; [now inversion H|].
    destruct (is_digit c'); [|discriminate].
    destruct (take_digits s') as [d r'] eqn:E. inversion H; subst.
    simpl. now rewrite (take_digits_concat _ _ _ E).
  - destruct (Ascii.eqb_spec c "0") as [->|_]; [now inversion H|].
    destruct (is_digit c); [|discriminate].
    destruct (take_digits s) as [d r'] eqn:E. inversion H; subst.
    simpl. now rewrite (take_digits_concat _ _ _ E).
Qed.

Lemma lex_frac_concat s f r : lex_frac s = (f, r) -> s = f ++ r.
Proof.
  unfold lex_frac. intros H.
  destruct s as [|c s]; [now inversion H|].
  destruct (Ascii.eqb_spec c ".") as [->|_]; [|now inversion H].
  destruct (take_digits s) as [[|d ds] r'] eqn:E; inversion H; subst; [reflexivity|].
  simpl. now rewrite (take_digits_concat _ _ _ E).
Qed.

Lemma lex_exp_concat s e r : lex_exp s = (e, r) -> s = e ++ r.
Proof.
  unfold lex_exp. intros H.
  destruct s as [|c s]; [now inversion H|].
  destruct ((c =? "e")%char || (c =? "E")%char); [|now inversion H].
  destruct s as [|c' s'].
  - simpl in H. now inversion H.
  - destruct ((c' =? "+")%char || (c' =? "-")%char).
    + destruct (take_digits s') as [[|d ds] r'] eqn:E; inversion H; subst; [reflexivity|].
      simpl. now rewrite (take_digits_concat _ _ _ E).
    + destruct (take_digits (String c' s')) as [[|d ds] r'] eqn:E; inversion H; subst; [reflexivity|].
      simpl. now rewrite (take_digits_concat _ _ _ E).
Qed.

Lemma lex_number_concat s i f e r :
  lex_number s = Some (i, f, e, r) -> s = i ++ f ++ e ++ r.
Proof.
  unfold lex_number. intros H.
  destruct (lex_int s) as [[i' r1]|] eqn:E1; [|discriminate].
  destruct (lex_frac r1) as [f' r2] eqn:E2.
  destruct (lex_exp r2) as [e' r3] eqn:E3.
  inversion H; subst.
  rewrite (lex_int_concat _ _ _ E1), (lex_frac_concat _ _ _ E2), (lex_exp_concat _ _ _ E3).
  reflexivity.
Qed.

Lemma lex_number_head s i f e r :
  lex_number s = Some (i, f, e, r) ->
  exists c s', s = String c s' /\ (is_digit c || (c =? "-")%char) = true.
Proof.
  unfold lex_number, lex_int. intros H.
  destruct s as [|c s]; [discriminate|]. exists c, s. split; [reflexivity|].
  destruct (Ascii.eqb_spec c "-") as [->|_]; [apply orb_true_r|].
  rewrite orb_false_r.
  destruct (Ascii.eqb_spec c "0") as [->|_]; [reflexivity|].
  destruct (is_digit c); [reflexivity|discriminate].
Qed.

Lemma to_uint_not_D0 p d : Pos.to_uint p <> Decimal.D0 d.
Proof.
  intros E.
  pose proof (DecimalPos.Unsigned.to_of (Pos.to_uint p)) as H.
  rewrite DecimalPos.Unsigned.of_to in H. simpl in H.
  rewrite E, DecimalFacts.unorm_D0 in H.
  unfold Decimal.unorm in H.
  destruct (Decimal.nzhead d) eqn:N.
  - inversion H; subst. apply (DecimalPos.Unsigned.to_uint_nonzero p). exact E.
  - eapply DecimalFacts.nzhead_nonzero; exact N.
  - discriminate. - discriminate. - discriminate. - discriminate. - discriminate.
  - discriminate. - discriminate. - discriminate. - discriminate.
Qed.

Lemma take_digits_uint u :
  take_digits (DecimalString.NilEmpty.string_of_uint u) = (DecimalString.NilEmpty.string_of_uint u, EmptyString).
Proof. induction u; simpl; rewrite ?IHu; reflexivity. Qed.

Lemma pos_text p :
  exists c t, DecimalString.NilZero.string_of_uint (Pos.to_uint p) = String c t /\
    (c =? "0")%char = false /\ (c =? "-")%char = false /\ is_digit c = true /\
    take_digits t = (t, EmptyString).
Proof.
  pose proof (DecimalPos.Unsigned.to_uint_nonnil p) as Hn.
  pose proof (to_uint_not_D0 p) as H0.
  destruct (Pos.to_uint p) as [|u|u|u|u|u|u|u|u|u|u];
    [contradiction| now destruct (H0 u) | ..];
    eexists _, _; (split; [reflexivity|]); repeat split; apply take_digits_uint.
Qed.

Lemma py_int_repr_lex z :
  lex_number (py_int_repr z) = Some (py_int_repr z, EmptyString, EmptyString, EmptyString).
Proof.
  unfold py_int_repr, lex_number.
  destruct z as [|p|p]; [reflexivity| |]; simpl;
    destruct (pos_text p) as [c [t [E [H1 [H2 [H3 H4]]]]]]; rewrite E.
  - unfold lex_int. rewrite H2, H1, H3, H4. reflexivity.
  - unfold lex_int. simpl. rewrite H1, H3, H4. reflexivity.
Qed.

Lemma int_of_token_repr z : int_of_token (py_int_repr z) = z.
Proof.
  unfold int_of_token, py_int_repr.
  rewrite DecimalString.NilZero.isi.
  - apply DecimalZ.of_to.
  - destruct z; simpl; [discriminate| |discriminate].
    intros E; inversion E as [E1]. eapply DecimalPos.Unsigned.to_uint_nonnil; exact E1.
  - destruct z; simpl; [discriminate|discriminate|].
    intros E; inversion E as [E1]. eapply DecimalPos.Unsigned.to_uint_nonnil; exact E1.
Qed.

Lemma scan_escape_char c t :
  scan_string (json_escape_char c ++ t) =
  match scan_string t with Some (u, r) => Some (String c u, r) | None => None end.
Proof. destruct c as [[] [] [] [] [] [] [] []]; reflexivity. Qed.

Lemma no_cr_escape_char c : no_cr (json_escape_char c) = true.
Proof. destruct c as [[] [] [] [] [] [] [] []]; reflexivity. Qed.

Lemma pvalue_number f s i fr ex r :
  lex_number s = Some (i, fr, ex, r) ->
  pvalue (S f) s =
  Some (match fr, ex with
        | EmptyString, EmptyString => VInt (int_of_token i)
        | _, _ => VFloat (FNum (i ++ fr ++ ex))
        end, r).
Proof.
  intros H.
  destruct (lex_number_head _ _ _ _ _ H) as [c [s' [-> Hc]]].
  destruct c as [[] [] [] [] [] [] [] []]; try discriminate Hc;
    cbn -[lex_number]; rewrite H; destruct fr, ex; reflexivity.
Qed.

Lemma scan_escape s rest :
  scan_string (json_escape s ++ String dq rest) = Some (s, rest).
Proof.
  induction s as [|c s IH]; [reflexivity|].
  simpl. rewrite sapp_assoc, scan_escape_char, IH. reflexivity.
Qed.

Lemma pvalue_str f s rest : pvalue (S f) (encode_str s ++ rest) = Some (VStr s, rest).
Proof.
  unfold encode_str. simpl String.append at 1. rewrite sapp_assoc. simpl String.append at 2.
  change (pvalue (S f) (String dq (json_escape s ++ String dq rest)))
    with (match scan_string (json_escape s ++ String dq rest) with
          | Some (t, r') => Some (VStr t, r') | None => None end).
  now rewrite scan_escape.
Qed.

Lemma no_cr_app a b : no_cr (a ++ b) = no_cr a && no_cr b.
Proof. induction a as [|c a IH]; simpl; [reflexivity|]. now rewrite IH, andb_assoc. Qed.

Lemma no_cr_escape s : no_cr (json_escape s) = true.
Proof. induction s as [|c s IH]; simpl; [reflexivity|]. now rewrite no_cr_app, no_cr_escape_char, IH. Qed.

Lemma no_cr_encode s : no_cr (encode_str s) = true.
Proof. unfold encode_str. simpl. now rewrite no_cr_app, no_cr_escape. Qed.

Lemma digit_not_cr c : is_digit c = true -> negb (nat_of_ascii c =? 13)%nat = true.
Proof.
  unfold is_digit. intros H. apply andb_prop in H as [H1 H2].
  apply Nat.leb_le in H1. apply negb_true_iff, Nat.eqb_neq. lia.
Qed.

Lemma no_cr_take_digits s d r : take_digits s = (d, r) -> no_cr d = true.
Proof.
  revert d r. induction s as [|c s IH]; simpl; intros d r H; [now inversion H|].
  destruct (is_digit c) eqn:D; [|now inversion H].
  destruct (take_digits s) as [d' r'] eqn:E. inversion H; subst; simpl.
  rewrite (digit_not_cr _ D). now apply (IH _ _ eq_refl).
Qed.

Lemma no_cr_lex_int s i r : lex_int s = Some (i, r) -> no_cr i = true.
Proof.
  unfold lex_int. intros H.
  destruct s as [|c s]; [discriminate|].
  destruct (Ascii.eqb_spec c "-") as [->|_].
  - destruct s as [|c' s']; [discriminate|].
    destruct (Ascii.eqb_spec c' "0") as [->|_]; [now inversion H|].
    destruct (is_digit c') eqn:D; [|discriminate].
    destruct (take_digits s') as [d r'] eqn:E. inversion H; subst.
    simpl. rewrite (digit_not_cr _ D). now apply (no_cr_take_digits _ _ _ E).
  - destruct (Ascii.eqb_spec c "0") as [->|_]; [now inversion H|].
    destruct (is_digit c) eqn:D; [|discriminate].
    destruct (take_digits s) as [d r'] eqn:E. inversion H; subst.
    simpl. rewrite (digit_not_cr _ D). now apply (no_cr_take_digits _ _ _ E).
Qed.

Lemma no_cr_lex_frac s f r : lex_frac s = (f, r) -> no_cr f = true.
Proof.
  unfold lex_frac. intros H.
  destruct s as [|c s]; [now inversion H|].
  destruct (Ascii.eqb_spec c ".") as [->|_]; [|now inversion H].
  destruct (take_digits s) as [[|d ds] r'] eqn:E; inversion H; subst; [reflexivity|].
  simpl. now apply (no_cr_take_digits _ _ _ E).
Qed.

Lemma no_cr_lex_exp s e r : lex_exp s = (e, r) -> no_cr e = true.
Proof.
  unfold lex_exp. intros H.
  destruct s as [|c s]; [now inversion H|].
  destruct ((c =? "e")%char || (c =? "E")%char) eqn:Ce; [|now inversion H].
  assert (Hc : negb (nat_of_ascii c =? 13)%nat = true).
  { destruct (Ascii.eqb_spec c "e") as [->|_]; [reflexivity|].
    destruct (Ascii.eqb_spec c "E") as [->|_]; [reflexivity|discriminate]. }
  destruct s as [|c' s'].
  - simpl in H. now inversion H.
  - destruct ((c' =? "+")%char || (c' =? "-")%char) eqn:Cs.
    + assert (Hc' : negb (nat_of_ascii c' =? 13)%nat = true).
      { destruct (Ascii.eqb_spec c' "+") as [->|_]; [reflexivity|].
        destruct (Ascii.eqb_spec c' "-") as [->|_]; [reflexivity|discriminate]. }
      destruct (take_digits s') as [[|d ds] r'] eqn:E; inversion H; subst; [reflexivity|].
      simpl. rewrite Hc, Hc'. simpl. now apply (no_cr_take_digits _ _ _ E).
    + destruct (take_digits (String c' s')) as [[|d ds] r'] eqn:E; inversion H; subst; [reflexivity|].
      simpl. rewrite Hc. simpl. now apply (no_cr_take_digits _ _ _ E).
Qed.

Lemma no_cr_lex_number s i f e r :
  lex_number s = Some (i, f, e, r) -> no_cr (i ++ f ++ e) = true.
Proof.
  unfold lex_number. intros H.
  destruct (lex_int s) as [[i' r1]|] eqn:E1; [|discriminate].
  destruct (lex_frac r1) as [f' r2] eqn:E2.
  destruct (lex_exp r2) as [e' r3] eqn:E3.
  inversion H; subst.
  rewrite !no_cr_app, (no_cr_lex_int _ _ _ E1), (no_cr_lex_frac _ _ _ E2), (no_cr_lex_exp _ _ _ E3).
  reflexivity.
Qed.

Lemma float_text_ok_spec t :
  float_text_ok t = true ->
  exists i fr ex, lex_number t = Some (i, fr, ex, EmptyString) /\ t = i ++ fr ++ ex /\
    (fr <> EmptyString \/ ex <> EmptyString).
Proof.
  unfold float_text_ok. intros H.
  destruct (lex_number t) as [[[[i fr] ex] [|c r]]|] eqn:E; try discriminate.
  exists i, fr, ex. split; [reflexivity|]. split.
  - rewrite (lex_number_concat _ _ _ _ _ E). now rewrite sapp_nil_r.
  - destruct fr; [destruct ex|]; simpl in H; try discriminate.
    + right; discriminate.
    + left; discriminate.
Qed.

Lemma num_head_ok c :
  (is_digit c || (c =? "-")%char) = true ->
  is_json_ws c = false /\ (c =? "]")%char = false /\ (c =? "}")%char = false /\
  negb (nat_of_ascii c =? 13)%nat = true.
Proof. destruct c as [[] [] [] [] [] [] [] []]; try discriminate; repeat split. Qed.

Lemma skip_ws_spaces n s : skip_ws (spaces n ++ s) = skip_ws s.
Proof. induction n; simpl; auto. Qed.

Lemma skip_ws_nl lvl s : skip_ws (newline_indent lvl ++ s) = skip_ws s.
Proof. unfold newline_indent. simpl. apply skip_ws_spaces. Qed.

Lemma skip_ws_head c r : is_json_ws c = false -> skip_ws (String c r) = String c r.
Proof. simpl. intros ->. reflexivity. Qed.

Lemma no_cr_spaces n : no_cr (spaces n) = true.
Proof. induction n; simpl; auto. Qed.

Lemma no_cr_nl lvl : no_cr (newline_indent lvl) = true.
Proof. unfold newline_indent. simpl. apply no_cr_spaces. Qed.

Lemma dumps_head v lvl :
  json_doc_ok v = true ->
  exists c r, dumps_at lvl v = String c r /\ is_json_ws c = false /\
    (c =? "]")%char = false /\ (c =? "}")%char = false.
Proof.
  intros Hok.
  assert (Hnum : forall s i f e r, lex_number s = Some (i, f, e, r) ->
            exists c r', s = String c r' /\ is_json_ws c = false /\
              (c =? "]")%char = false /\ (c =? "}")%char = false).
  { intros s i f e r H. destruct (lex_number_head _ _ _ _ _ H) as [c [r' [-> Hc]]].
    destruct (num_head_ok _ Hc) as [H1 [H2 [H3 _]]]. eauto 6. }
  destruct v as [| [] | z | [t| |[]] | s | [|x l] | [|kv kvs]]; simpl in *;
    try discriminate; try (eexists _, _; split; [reflexivity|]; repeat split; fail).
  - exact (Hnum _ _ _ _ _ (py_int_repr_lex z)).
  - destruct (float_text_ok_spec _ Hok) as [i [fr [ex [E _]]]]. exact (Hnum _ _ _ _ _ E).
Qed.

Lemma dumps_length v lvl : json_doc_ok v = true -> (1 <= String.length (dumps_at lvl v))%nat.
Proof.
  intros Hok. destruct (dumps_head v lvl Hok) as [c [r [E _]]]. rewrite E. simpl. lia.
Qed.

Lemma dumps_list_eq lvl x r :
  dumps_at lvl (VList (x :: r)) =
  "[" ++ newline_indent (S lvl) ++
  join_items (dumps_at (S lvl)) ("," ++ newline_indent (S lvl)) (x :: r) ++ newline_indent lvl ++ "]".
Proof. reflexivity. Qed.

Lemma dumps_dict_eq lvl kv r :
  dumps_at lvl (VDict (kv :: r)) =
  "{" ++ newline_indent (S lvl) ++
  join_items (fun kv => encode_str (fst kv) ++ ": " ++ dumps_at (S lvl) (snd kv))
    ("," ++ newline_indent (S lvl)) (kv :: r) ++ newline_indent lvl ++ "}".
Proof. reflexivity. Qed.

Lemma no_cr_join {A} (pr : A -> string) sep l :
  no_cr sep = true -> Forall (fun x => no_cr (pr x) = true) l -> no_cr (join_items pr sep l) = true.
Proof.
  intros Hs Hl. induction Hl as [|x r Hx Hr IH]; simpl; [reflexivity|].
  rewrite no_cr_app, Hx. destruct r; simpl; [reflexivity|].
  rewrite no_cr_app, Hs. exact IH.
Qed.

Lemma no_cr_dumps v : json_doc_ok v = true -> forall lvl, no_cr (dumps_at lvl v) = true.
Proof.
  induction v as [| b | z | fl | s | l IH | kvs IH] using value_ind'; intros Hok lvl.
  - reflexivity.
  - destruct b; reflexivity.
  - destruct (num_head_ok "0" eq_refl) as [_ [_ [_ _]]].
    pose proof (no_cr_lex_number _ _ _ _ _ (py_int_repr_lex z)) as H.
    simpl. rewrite !sapp_nil_r in H. exact H.
  - destruct fl as [t| |[]]; simpl in *; try reflexivity; try discriminate.
    destruct (float_text_ok_spec _ Hok) as [i [fr [ex [E [-> _]]]]].
    exact (no_cr_lex_number _ _ _ _ _ E).
  - apply no_cr_encode.
  - destruct l as [|x r]; [reflexivity|].
    rewrite dumps_list_eq, !no_cr_app, !no_cr_nl.
    rewrite no_cr_join; [reflexivity| rewrite no_cr_app, no_cr_nl; reflexivity|].
    change (forallb json_doc_ok (x :: r) = true) in Hok. apply Forall_forall. intros y Hy.
    rewrite Forall_forall in IH. apply IH; [exact Hy|].
    rewrite forallb_forall in Hok. exact (Hok y Hy).
  - destruct kvs as [|kv r]; [reflexivity|].
    rewrite dumps_dict_eq, !no_cr_app, !no_cr_nl.
    rewrite no_cr_join; [reflexivity| rewrite no_cr_app, no_cr_nl; reflexivity|].
    change (nodup_keys (kv :: r) && forallb (fun kv => json_doc_ok (snd kv)) (kv :: r) = true) in Hok.
    apply andb_prop in Hok as [_ Hok].
    apply Forall_forall. intros y Hy.
    rewrite Forall_forall in IH. rewrite !no_cr_app, no_cr_encode. simpl.
    apply IH; [exact Hy|].
    rewrite forallb_forall in Hok. exact (Hok y Hy).
Qed.

Lemma pvalue_list_eq f y :
  pvalue (S f) (String "[" y) =
  match skip_ws y with
  | String c1 r1 =>
      if (c1 =? "]")%char then Some (VList [], r1)
      else match pelems f (String c1 r1) [] with
           | Some (l, r2) => Some (VList l, r2)
           | None => None
           end
  | EmptyString => None
  end.
Proof. reflexivity. Qed.

Lemma pvalue_dict_eq f y :
  pvalue (S f) (String "{" y) =
  match skip_ws y with
  | String c1 r1 =>
      if (c1 =? "}")%char then Some (VDict [], r1)
      else match pmembers f (String c1 r1) [] with
           | Some (pairs, r2) => Some (VDict (dict_of_pairs pairs), r2)
           | None => None
           end
  | EmptyString => None
  end.
Proof. reflexivity. Qed.

Lemma pelems_eq f s acc :
  pelems (S f) s acc =
  match pvalue f s with
  | Some (v, r1) =>
      match skip_ws r1 with
      | String c r2 =>
          if (c =? ",")%char then pelems f (skip_ws r2) (acc ++ [v])%list
          else if (c =? "]")%char then Some ((acc ++ [v])%list, r2)
          else None
      | EmptyString => None
      end
  | None => None
  end.
Proof. reflexivity. Qed.

Lemma pmembers_eq f y acc :
  pmembers (S f) (String dq y) acc =
  match scan_string y with
  | Some (k, r1) =>
      match skip_ws r1 with
      | String c1 r2 =>
          if (c1 =? ":")%char then
            match pvalue f (skip_ws r2) with
            | Some (v, r3) =>
                match skip_ws r3 with
                | String c3 r4 =>
                    if (c3 =? ",")%char then pmembers f (skip_ws r4) (acc ++ [(k, v)])%list
                    else if (c3 =? "}")%char then Some ((acc ++ [(k, v)])%list, r4)
                    else None
                | EmptyString => None
                end
            | None => None
            end
          else None
      | EmptyString => None
      end
  | None => None
  end.
Proof. reflexivity. Qed.

Lemma slength_nl lvl : (1 <= String.length (newline_indent lvl))%nat.
Proof. unfold newline_indent. simpl. lia. Qed.

Lemma num_stop_nl lvl s : num_stop (newline_indent lvl ++ s) = true.
Proof. reflexivity. Qed.



Lemma skip_ws_dumps lvl x s :
  json_doc_ok x = true -> skip_ws (dumps_at lvl x ++ s) = dumps_at lvl x ++ s.
Proof.
  intros Hok. destruct (dumps_head x lvl Hok) as [c [r [E [Hw _]]]].
  rewrite E. simpl. now rewrite Hw.
Qed.

Lemma skip_ws_comma s : skip_ws ("," ++ s) = String "," s.
Proof. reflexivity. Qed.

Lemma pelems_items lvl (l : list value) :
  l <> [] -> Forall (parses_back (S lvl)) l ->
  forall fuel acc rest,
  S (String.length (join_items (dumps_at (S lvl)) ("," ++ newline_indent (S lvl)) l)) < fuel ->
  pelems fuel (join_items (dumps_at (S lvl)) ("," ++ newline_indent (S lvl)) l ++
               newline_indent lvl ++ String "]" rest) acc = Some ((acc ++ l)%list, rest).
Proof.
  intros Hne Hall. induction Hall as [|x r [Hok Hx] Hr IH]; [contradiction|].
  intros fuel acc rest Hlen. destruct fuel as [|f]; [lia|].
  rewrite pelems_eq. destruct r as [|y r'].
  - simpl join_items in *. rewrite sapp_nil_r in *.
    rewrite Hx; [| lia | apply num_stop_nl].
    rewrite skip_ws_nl. reflexivity.
  - change (join_items (dumps_at (S lvl)) ("," ++ newline_indent (S lvl)) (x :: y :: r'))
      with (dumps_at (S lvl) x ++ ("," ++ newline_indent (S lvl)) ++
            join_items (dumps_at (S lvl)) ("," ++ newline_indent (S lvl)) (y :: r')) in *.
    rewrite !slength_app in Hlen.
    pose proof (slength_nl (S lvl)).
    rewrite !sapp_assoc.
    rewrite Hx; [| simpl in Hlen; lia | reflexivity].
    rewrite skip_ws_comma. cbv beta iota. rewrite Ascii.eqb_refl. cbv beta iota.
    rewrite skip_ws_nl.
    inversion Hr as [|? ? [Hoky _] _]; subst.
    change (join_items (dumps_at (S lvl)) ("," ++ newline_indent (S lvl)) (y :: r'))
      with (dumps_at (S lvl) y ++ match r' with [] => EmptyString | _ => ("," ++ newline_indent (S lvl)) ++ join_items (dumps_at (S lvl)) ("," ++ newline_indent (S lvl)) r' end) in *.
    rewrite (sapp_assoc (dumps_at (S lvl) y)), skip_ws_dumps by exact Hoky.
    rewrite <- sapp_assoc.
    rewrite IH; [| discriminate | pose proof (dumps_length x (S lvl) Hok); lia].
    now rewrite <- app_assoc.
Qed.

Lemma encode_app s z : encode_str s ++ z = String dq (json_escape s ++ String dq z).
Proof. unfold encode_str. simpl. now rewrite sapp_assoc. Qed.

Lemma skip_ws_colon s : skip_ws (": " ++ s) = String ":" (String " " s).
Proof. reflexivity. Qed.

Lemma skip_ws_space s : skip_ws (String " " s) = skip_ws s.
Proof. reflexivity. Qed.

Lemma skip_ws_join_kv lvl kv r sep z :
  skip_ws (join_items (fun kv => encode_str (fst kv) ++ ": " ++ dumps_at (S lvl) (snd kv)) sep (kv :: r) ++ z) =
  join_items (fun kv => encode_str (fst kv) ++ ": " ++ dumps_at (S lvl) (snd kv)) sep (kv :: r) ++ z.
Proof. reflexivity. Qed.

Lemma pmembers_items lvl (kvs : list (string * value)) :
  kvs <> [] -> Forall (fun kv => parses_back (S lvl) (snd kv)) kvs ->
  forall fuel acc rest,
  S (String.length (join_items (fun kv => encode_str (fst kv) ++ ": " ++ dumps_at (S lvl) (snd kv))
                      ("," ++ newline_indent (S lvl)) kvs)) < fuel ->
  pmembers fuel (join_items (fun kv => encode_str (fst kv) ++ ": " ++ dumps_at (S lvl) (snd kv))
                   ("," ++ newline_indent (S lvl)) kvs ++ newline_indent lvl ++ String "}" rest) acc =
  Some ((acc ++ kvs)%list, rest).
Proof.
  intros Hne Hall. induction Hall as [|[k x] r [Hok Hx] Hr IH]; [contradiction|].
  intros fuel acc rest Hlen. destruct fuel as [|f]; [lia|].
  simpl fst in *. simpl snd in *.
  change (join_items (fun kv => encode_str (fst kv) ++ ": " ++ dumps_at (S lvl) (snd kv))
            ("," ++ newline_indent (S lvl)) ((k, x) :: r))
    with ((encode_str k ++ ": " ++ dumps_at (S lvl) x) ++
          match r with
          | [] => EmptyString
          | _ => ("," ++ newline_indent (S lvl)) ++
                 join_items (fun kv => encode_str (fst kv) ++ ": " ++ dumps_at (S lvl) (snd kv))
                   ("," ++ newline_indent (S lvl)) r
          end) in *.
  rewrite !slength_app in Hlen.
  rewrite !sapp_assoc, encode_app, pmembers_eq, scan_escape, skip_ws_colon.
  cbv beta iota. rewrite Ascii.eqb_refl. cbv beta iota.
  rewrite skip_ws_space, skip_ws_dumps by exact Hok.
  destruct r as [|[k' y] r'].
  - rewrite Hx; [| lia | apply num_stop_nl].
    change (EmptyString ++ ?s) with s. rewrite skip_ws_nl. reflexivity.
  - rewrite sapp_assoc.
    rewrite Hx; [| lia | reflexivity].
    rewrite skip_ws_comma. cbv beta iota. rewrite Ascii.eqb_refl. cbv beta iota.
    rewrite sapp_assoc, skip_ws_nl, skip_ws_join_kv.
    cbv beta iota in Hlen. rewrite !slength_app in Hlen.
    rewrite IH; [| discriminate | pose proof (dumps_length x (S lvl) Hok); lia].
    now rewrite <- app_assoc.
Qed.

Lemma dict_set_new {A} k (v : A) d : ~ In k (map fst d) -> dict_set k v d = (d ++ [(k, v)])%list.
Proof.
  induction d as [|[k' v'] r IH]; simpl; intros Hn; [reflexivity|].
  destruct (String.eqb_spec k k') as [->|_]; [tauto|].
  rewrite IH; tauto.
Qed.

Lemma fold_set_app {A} (kvs acc : list (string * A)) :
  NoDup (map fst (acc ++ kvs)) ->
  fold_left (fun acc kv => dict_set (fst kv) (snd kv) acc) kvs acc = (acc ++ kvs)%list.
Proof.
  revert acc. induction kvs as [|[k v] r IH]; intros acc Hnd; simpl.
  - now rewrite app_nil_r.
  - rewrite map_app in Hnd. simpl in Hnd.
    rewrite dict_set_new.
    + rewrite IH; [now rewrite <- app_assoc|].
      rewrite <- app_assoc. rewrite map_app. exact Hnd.
    + intros Hin. apply (NoDup_remove_2 _ _ _ Hnd). apply in_or_app. now left.
Qed.

Lemma dict_of_pairs_nodup kvs : nodup_keys kvs = true -> dict_of_pairs kvs = kvs.
Proof.
  intros H. unfold dict_of_pairs, dict_merge.
  apply (fold_set_app kvs []). now apply nodup_keys_NoDup.
Qed.

Lemma join_head lvl x r sep z :
  json_doc_ok x = true ->
  exists c w, join_items (dumps_at lvl) sep (x :: r) ++ z = String c w /\
    is_json_ws c = false /\ (c =? "]")%char = false.
Proof.
  intros Hok. destruct (dumps_head x lvl Hok) as [c [w [E [Hw [Hb _]]]]].
  simpl join_items. rewrite sapp_assoc, E. simpl. eauto.
Qed.

Lemma join_kv_head lvl kv r sep z :
  exists w, join_items (fun kv => encode_str (fst kv) ++ ": " ++ dumps_at lvl (snd kv)) sep (kv :: r) ++ z =
    String dq w.
Proof. simpl. eauto. Qed.

Lemma dq_not_close : (dq =? "}")%char = false.
Proof. reflexivity. Qed.

Lemma pvalue_dumps v : json_doc_ok v = true -> forall lvl, parses_back lvl v.
Proof.
  induction v as [| b | z | fl | s | l IH | kvs IH] using value_ind'; intros Hok lvl;
    split; [exact Hok| | exact Hok| | exact Hok| | exact Hok| | exact Hok| | exact Hok| | exact Hok|];
    intros rest fuel Hlen Hst; (destruct fuel as [|f]; [lia|]).
  - reflexivity.
  - destruct b; reflexivity.
  - simpl dumps_at.
    rewrite (pvalue_number f _ _ _ _ _ (lex_number_app _ _ _ _ _ _ (py_int_repr_lex z) Hst)).
    now rewrite int_of_token_repr.
  - destruct fl as [t| |[]]; simpl in Hok; try discriminate; try reflexivity.
    destruct (float_text_ok_spec _ Hok) as [i [fr [ex [E [Ht Hne]]]]].
    simpl dumps_at.
    rewrite (pvalue_number f _ _ _ _ _ (lex_number_app _ _ _ _ _ _ E Hst)).
    rewrite <- Ht. destruct fr, ex; [destruct Hne; congruence|reflexivity..].
  - apply pvalue_str.
  - destruct l as [|x r]; [reflexivity|].
    change (forallb json_doc_ok (x :: r) = true) in Hok.
    assert (Hall : Forall (parses_back (S lvl)) (x :: r)).
    { rewrite Forall_forall in IH |- *. intros y Hy. apply IH; [exact Hy|].
      rewrite forallb_forall in Hok. exact (Hok y Hy). }
    rewrite dumps_list_eq in *.
    rewrite !slength_app in Hlen.
    rewrite !sapp_assoc.
    change ("[" ++ ?s) with (String "[" s).
    rewrite pvalue_list_eq, skip_ws_nl.
    pose proof (Forall_inv Hall) as [Hokx _].
    change ("]" ++ ?s) with (String "]" s).
    destruct (join_head (S lvl) x r ("," ++ newline_indent (S lvl))
                (newline_indent lvl ++ String "]" rest) Hokx) as [c [w [E [Hw Hb]]]].
    rewrite E, (skip_ws_head _ _ Hw). cbv beta iota. rewrite Hb. rewrite <- E.
    rewrite pelems_items; [reflexivity|discriminate|exact Hall|].
    pose proof (slength_nl (S lvl)). simpl String.length in Hlen |- *. lia.
  - destruct kvs as [|kv r]; [reflexivity|].
    change (nodup_keys (kv :: r) && forallb (fun kv => json_doc_ok (snd kv)) (kv :: r) = true) in Hok.
    apply andb_prop in Hok as [Hnd Hok].
    assert (Hall : Forall (fun kv => parses_back (S lvl) (snd kv)) (kv :: r)).
    { rewrite Forall_forall in IH |- *. intros y Hy. apply IH; [exact Hy|].
      rewrite forallb_forall in Hok. exact (Hok y Hy). }
    rewrite dumps_dict_eq in *.
    rewrite !slength_app in Hlen.
    rewrite !sapp_assoc.
    change ("{" ++ ?s) with (String "{" s).
    change ("}" ++ ?s) with (String "}" s).
    rewrite pvalue_dict_eq, skip_ws_nl, skip_ws_join_kv.
    destruct (join_kv_head (S lvl) kv r ("," ++ newline_indent (S lvl))
                (newline_indent lvl ++ String "}" rest)) as [w E].
    rewrite E. cbv beta iota. rewrite dq_not_close. cbv beta iota. rewrite <- E.
    rewrite pmembers_items; [|discriminate|exact Hall|].
    + simpl app. now rewrite dict_of_pairs_nodup.
    + pose proof (slength_nl (S lvl)). simpl String.length in Hlen |- *. lia.
Qed.

Lemma json_loads_dumps v : json_doc_ok v = true -> json_loads (json_dumps v) = Some v.
Proof.
  intros Hok. unfold json_loads, json_dumps.
  destruct (pvalue_dumps v Hok 0) as [_ H].
  specialize (H EmptyString (S (String.length (dumps_at 0 v))) ltac:(lia) eq_refl).
  rewrite sapp_nil_r in H.
  destruct (dumps_head v 0 Hok) as [c [w [E [Hw _]]]].
  rewrite E, (skip_ws_head _ _ Hw), <- E, H. reflexivity.
Qed.

Lemma normalize_no_cr s : no_cr s = true -> normalize_newlines s = s.
Proof.
  induction s as [|c r IH]; simpl; intros H; [reflexivity|].
  apply andb_prop in H as [H1 H2]. apply negb_true_iff in H1.
  rewrite H1. now rewrite IH.
Qed.

Lemma contains_cons pat c r :
  contains pat (String c r) = false -> contains pat r = false.
Proof. simpl. destruct (strip_prefix pat (String c r)); [discriminate|auto]. Qed.

Lemma jlex_plain s :
  contains "{{" s = false -> contains "{%" s = false -> contains "{#" s = false ->
  forall fuel data acc, String.length s < fuel ->
  jlex fuel s data acc = LOk (rev acc ++ flush (data ++ s)).
Proof.
  induction s as [|c r IH]; intros H1 H2 H3 fuel data acc Hlen;
    (destruct fuel as [|f]; [simpl in Hlen; lia|]).
  - cbn [jlex]. now rewrite sapp_nil_r.
  - pose proof (contains_cons _ _ _ H1) as H1'.
    pose proof (contains_cons _ _ _ H2) as H2'.
    pose proof (contains_cons _ _ _ H3) as H3'.
    assert (Hstep : jlex f r (data ++ String c EmptyString) acc = LOk (rev acc ++ flush (data ++ String c r))).
    { rewrite IH by (simpl in Hlen; lia || assumption). now rewrite sapp_assoc. }
    cbn [jlex].
    destruct (Ascii.eqb_spec c "{") as [->|Hc]; [|exact Hstep].
    destruct r as [|c' r']; [exact Hstep|].
    destruct (Ascii.eqb_spec c' "{") as [->|Hc1]; [discriminate H1|].
    destruct (Ascii.eqb_spec c' "%") as [->|Hc2]; [discriminate H2|].
    destruct (Ascii.eqb_spec c' "#") as [->|Hc3]; [discriminate H3|].
    exact Hstep.
Qed.

Lemma jlex_plain_top s :
  no_cr s = true ->
  contains "{{" s = false -> contains "{%" s = false -> contains "{#" s = false ->
  jlex (S (String.length (normalize_newlines s))) (normalize_newlines s) EmptyString [] = LOk (flush s).
Proof.
  intros Hcr H1 H2 H3. rewrite (normalize_no_cr _ Hcr).
  rewrite jlex_plain by (assumption || lia). reflexivity.
Qed.

Lemma jinja_render_plain s ctx :
  no_cr s = true ->
  contains "{{" s = false -> contains "{%" s = false -> contains "{#" s = false ->
  dict_has "self" ctx = false ->
  jinja_render s ctx = JOk s.
Proof.
  intros Hcr H1 H2 H3 Hs. unfold jinja_render. rewrite jlex_plain_top by assumption.
  destruct s as [|c r]; cbn [flush has_reserved existsb]; rewrite Hs; simpl; [reflexivity|].
  now rewrite sapp_nil_r.
Qed.

Lemma jinja_render_self s ctx :
  no_cr s = true ->
  contains "{{" s = false -> contains "{%" s = false -> contains "{#" s = false ->
  dict_has "self" ctx = true ->
  jinja_render s ctx = JTypeError render_self_clash.
Proof.
  intros Hcr H1 H2 H3 Hs. unfold jinja_render. rewrite jlex_plain_top by assumption.
  destruct s as [|c r]; cbn [flush has_reserved existsb]; rewrite Hs; reflexivity.
Qed.

End Renderer.

(** C5 (amended): rendering reproduces a document, under any context
    without the key [self] (which clashes with [render]'s own parameter),
    when its serialization holds none of the three Jinja2 openers [{{],
    [{%] and [{#] (the last one opens a comment, which rendering removes),
    its dict keys are pairwise distinct and it holds no NaN.  The float
    texts are those of [repr], numbers with a fraction or an exponent. *)
Theorem C5_round_trip (doc : list (string * value)) (ctx : list (string * string)) :
  json_doc_ok (VDict doc) = true ->
  contains "{{" (json_dumps (VDict doc)) = false ->
  contains "{%" (json_dumps (VDict doc)) = false ->
  contains "{#" (json_dumps (VDict doc)) = false ->
  dict_has "self" ctx = false ->
  render_config_template doc ctx = Rendered (VDict doc).
Proof.
  intros Hok H1 H2 H3 Hs. unfold render_config_template.
  rewrite jinja_render_plain by (apply no_cr_dumps || assumption; exact Hok).
  now rewrite json_loads_dumps.
Qed.

Lemma C5_round_trip_witness :
  json_doc_ok (VDict [("version", VInt 3); ("name", VStr "svc {x}"); ("ratio", VFloat (FNum "0.5"))]) = true /\
  render_config_template [("version", VInt 3); ("name", VStr "svc {x}"); ("ratio", VFloat (FNum "0.5"))]
    [("user", "alice"); ("env", "prod")] =
  Rendered (VDict [("version", VInt 3); ("name", VStr "svc {x}"); ("ratio", VFloat (FNum "0.5"))]).
Proof.
  split; [reflexivity|].
  apply C5_round_trip; vm_compute; reflexivity.
Defined.

(** * Further properties of the code *)

Lemma check_items_ok es items cov unm :
  (forall k v, In (k, v) items -> exists i f, first_match es k = Some (i, f) /\ f v = None) ->
  exists cov', check_items es items cov unm = inr (cov', unm) /\
    (forall i, In i cov -> In i cov') /\
    (forall k v i f, In (k, v) items -> first_match es k = Some (i, f) -> In i cov').
Proof.
  revert cov.
  induction items as [|[k v] r IH]; simpl; intros cov H.
  - exists cov; split; [reflexivity|]. split; [auto|tauto].
  - destruct (H k v (or_introl eq_refl)) as [i [f [Hm Hf]]]. rewrite Hm, Hf.
    destruct (IH (i :: cov)) as [cov' [E [Hc1 Hc2]]]; [intros; apply H; auto|].
    exists cov'; split; [exact E|]. split; [intros; apply Hc1; now right|].
    intros k' v' i' f' [Heq|Hin] Hm'.
    + inversion Heq; subst. rewrite Hm in Hm'. inversion Hm'; subst.
      apply Hc1. now left.
    + eauto.
Qed.

Lemma required_first_match k :
  first_match (sort_by centry_prio REQ_entries) k =
  if String.eqb "version" k then Some (0%nat, validate_s (SType TInt))
  else Some (1%nat, validate_s (SType TObject)).
Proof. reflexivity. Qed.

Lemma In_dict_get_nodup {A} k (d : list (string * A)) v :
  NoDup (map fst d) -> In (k, v) d -> dict_get k d = Some v.
Proof.
  induction d as [|[k' v'] r IH]; simpl; [tauto|].
  intros Hnd [H|H]; inversion Hnd as [|? ? Hn Hnd']; subst.
  - inversion H; subst. now rewrite String.eqb_refl.
  - destruct (String.eqb_spec k k') as [->|_]; [|auto].
    exfalso. apply Hn. change k' with (fst (k', v)). now apply in_map.
Qed.

(** [REQUIRED_FIELDS_SCHEMA] passes exactly when every [version] item holds
    an [int] and there is one. *)
Lemma required_pass d :
  dict_has "version" d = true ->
  (forall v, In ("version", v) d -> validate_s (SType TInt) v = None) ->
  validate_s REQUIRED_FIELDS_SCHEMA (VDict d) = None.
Proof.
  intros Hh Hv.
  change (validate_s REQUIRED_FIELDS_SCHEMA (VDict d)) with (check_dict REQ_entries (VDict d)).
  unfold dict_has in Hh. destruct (dict_get "version" d) as [v0|] eqn:Hg; [|discriminate].
  edestruct (check_items_ok (sort_by centry_prio REQ_entries) (sort_by is_dict_value d) [] [])
    as [cov [E [_ Hc]]].
  - intros k v Hin. apply (Permutation_in _ (sort_by_perm _ _)) in Hin.
    rewrite required_first_match.
    destruct (String.eqb_spec "version" k) as [<-|_]; do 2 eexists; split; try reflexivity.
    + now apply Hv.
    + destruct v; reflexivity.
  - unfold check_dict. rewrite E.
    assert (H0 : In 0%nat cov).
    { apply (Hc "version" v0 0%nat (validate_s (SType TInt))).
      - apply (Permutation_in _ (Permutation_sym (sort_by_perm _ _))). now apply dict_get_In.
      - reflexivity. }
    cbn -[validate_s].
    replace (existsb (fun m : nat => match m with 0%nat => true | S _ => false end) cov) with true.
    + reflexivity.
    + symmetry. apply existsb_exists. exists 0%nat. auto.
Qed.

Lemma required_fail d v :
  In ("version", v) d -> validate_s (SType TInt) v <> None ->
  exists e, validate_s REQUIRED_FIELDS_SCHEMA (VDict d) = Some e.
Proof.
  intros Hin Hv.
  change (validate_s REQUIRED_FIELDS_SCHEMA (VDict d)) with (check_dict REQ_entries (VDict d)).
  destruct (validate_s (SType TInt) v) as [e|] eqn:He; [|congruence].
  unfold check_dict.
  edestruct (check_items_fail (sort_by centry_prio REQ_entries) (sort_by is_dict_value d) [] []
               "version" v 0%nat (validate_s (SType TInt))) as [e' E].
  - apply (Permutation_in _ (Permutation_sym (sort_by_perm _ _))). exact Hin.
  - reflexivity.
  - exact He.
  - rewrite E. eauto.
Qed.

Lemma base_version_fail d v :
  In ("version", v) d -> validate_s VERSION_SCHEMA v <> None ->
  exists e, validate_s BASE_CONFIG_SCHEMA (VDict d) = Some e.
Proof.
  intros Hin Hv.
  change (validate_s BASE_CONFIG_SCHEMA (VDict d)) with (check_dict BASE_entries (VDict d)).
  destruct (validate_s VERSION_SCHEMA v) as [e|] eqn:He; [|congruence].
  unfold check_dict.
  edestruct (check_items_fail (sort_by centry_prio BASE_entries) (sort_by is_dict_value d) [] []
               "version" v 0%nat (validate_s VERSION_SCHEMA)) as [e' E].
  - apply (Permutation_in _ (Permutation_sym (sort_by_perm _ _))). exact Hin.
  - reflexivity.
  - exact He.
  - rewrite E. eauto.
Qed.

(** A document [validate] accepts has an [int] [version], positive when
    [database] is present. *)
Lemma validate_true_version d errs :
  validate d = Ret (true, errs) ->
  errs = [] /\ exists z, dict_get "version" d = Some (VInt z) /\ (dict_has "database" d = true -> 0 < z).
Proof.
  unfold validate, get_validation_errors.
  destruct (validate_config_schema d) as [e|] eqn:Hs.
  - intros H.
    destruct (dict_get "database" d) as [[| | | | | |db]|]; cbn in H; try discriminate H.
    all: destruct (negb (opt_truthy (dict_get "host" db)) || _);
      destruct (negb (opt_isinstance (dict_get "port" db) TInt) || _);
      cbn in H; discriminate H.
  - intros H.
    assert (Herrs : errs = []).
    { destruct (dict_get "database" d) as [[| | | | | |db]|]; cbn in H; try discriminate H.
      - destruct (negb (opt_truthy (dict_get "host" db)) || _);
          destruct (negb (opt_isinstance (dict_get "port" db) TInt) || _);
          cbn in H; inversion H; auto.
      - inversion H; auto. }
    split; [exact Herrs|].
    unfold validate_config_schema in Hs.
    destruct (validate_s REQUIRED_FIELDS_SCHEMA (VDict d)) as [e|] eqn:Hr; [discriminate|].
    destruct (dict_get "version" d) as [v|] eqn:Hv.
    2: { rewrite (required_missing_version d Hv) in Hr. discriminate. }
    assert (Hi : validate_s (SType TInt) v = None).
    { destruct (validate_s (SType TInt) v) eqn:E; [|reflexivity].
      destruct (required_fail d v (dict_get_In _ _ _ Hv)) as [e' He']; [congruence|].
      congruence. }
    destruct v as [| b | z | | | |]; try discriminate Hi.
    exists z. split; [reflexivity|].
    intros Hdb. rewrite Hdb in Hs.
    destruct (Z.ltb_spec 0 z) as [Hz|Hz]; [exact Hz|exfalso].
    destruct (base_version_fail d (VInt z) (dict_get_In _ _ _ Hv)) as [e' He'].
    + cbn. destruct (Z.ltb_spec 0 z); [lia|discriminate].
    + congruence.
Qed.

(** X1: [check_required_fields] reports no error exactly when [version] is an
    [int] of at least 1 or the [bool] [True] (a [bool] is an [int] for
    [isinstance]), and [database] is absent or an object holding both [host]
    and [port] keys. *)
Theorem X1_check_required_fields_empty (d : list (string * value)) :
  check_required_fields d = [] <->
  ((exists z, dict_get "version" d = Some (VInt z) /\ 1 <= z) \/
   dict_get "version" d = Some (VBool true)) /\
  match dict_get "database" d with
  | None => True
  | Some (VDict db) => dict_has "host" db = true /\ dict_has "port" db = true
  | Some _ => False
  end.
Proof.
  unfold check_required_fields.
  set (errs := match dict_get "version" d with
               | Some v => if negb (isinstance v TInt) || version_lt_1 v
                           then ["Field 'version' must be a positive integer"] else []
               | None => ["Missing required field: version"] end).
  assert (He : errs = [] <-> ((exists z, dict_get "version" d = Some (VInt z) /\ 1 <= z) \/
                              dict_get "version" d = Some (VBool true))).
  { subst errs. destruct (dict_get "version" d) as [[| [] | z | | | |]|]; cbn;
      split; intros H; try discriminate H;
      try (destruct H as [[z' [H _]]|H]; discriminate H); eauto.
    - destruct (Z.ltb_spec z 1); [discriminate|]. left. exists z. split; [reflexivity|lia].
    - destruct H as [[z' [H Hz]]|H]; [|discriminate]. inversion H; subst.
      destruct (Z.ltb_spec z' 1); [lia|reflexivity]. }
  destruct (dict_get "database" d) as [[| | | | | |db]|];
    try (split; [intros H; apply app_eq_nil in H as [_ H]; discriminate H
                |intros [_ []]]).
  - destruct (dict_has "host" db), (dict_has "port" db); cbn;
      split; intros H.
    + split; [apply He, H|auto].
    + apply He, H.
    + apply app_eq_nil in H as [_ H]; discriminate.
    + destruct H as [_ [_ H]]; discriminate.
    + apply app_eq_nil in H as [_ H]; discriminate.
    + destruct H as [_ [H _]]; discriminate.
    + apply app_eq_nil in H as [_ H]; discriminate.
    + destruct H as [_ [H _]]; discriminate.
  - split; intros H; [split; [apply He, H|exact I]|apply He, H].
Qed.

(** X2: a document without [database] whose [version] is an integer at most 0
    is accepted by [validate] with no error ([BASE_CONFIG_SCHEMA] and its
    positivity check run only when [database] is present), while
    [check_required_fields] rejects it as not a positive integer. *)
Theorem X2_nonpositive_version_accepted (d : list (string * value)) (z : Z) :
  nodup_keys d = true -> dict_get "version" d = Some (VInt z) -> z <= 0 ->
  dict_has "database" d = false ->
  validate d = Ret (true, []) /\
  check_required_fields d = ["Field 'version' must be a positive integer"].
Proof.
  intros Hnd Hv Hz Hdb.
  assert (Hr : validate_s REQUIRED_FIELDS_SCHEMA (VDict d) = None).
  { apply required_pass.
    - unfold dict_has. now rewrite Hv.
    - intros v Hin. rewrite (In_dict_get_nodup _ _ _ (nodup_keys_NoDup _ Hnd) Hin) in Hv.
      now inversion Hv. }
  unfold dict_has in Hdb. destruct (dict_get "database" d) eqn:Hg; [discriminate|].
  split.
  - unfold validate, get_validation_errors, validate_config_schema.
    rewrite Hr. unfold dict_has. now rewrite Hg.
  - unfold check_required_fields. rewrite Hv, Hg. cbn.
    destruct (Z.ltb_spec z 1); [reflexivity|lia].
Qed.

Lemma X2_nonpositive_version_accepted_witness :
  validate [("version", VInt 0); ("name", VStr "auth")] = Ret (true, []) /\
  check_required_fields [("version", VInt 0); ("name", VStr "auth")]
  = ["Field 'version' must be a positive integer"].
Proof.
  apply (X2_nonpositive_version_accepted _ 0); (reflexivity || lia).
Defined.

(** X3: a document without [database] whose [version] is [True] passes
    [check_required_fields], while [validate] reports it invalid with one
    schema error ([REQUIRED_FIELDS_SCHEMA] refuses a [bool] where [int] is
    asked). *)
Theorem X3_bool_version (d : list (string * value)) :
  dict_get "version" d = Some (VBool true) -> dict_get "database" d = None ->
  check_required_fields d = [] /\
  exists e, validate d = Ret (false, [VSchemaError e]).
Proof.
  intros Hv Hdb. split.
  - unfold check_required_fields. now rewrite Hv, Hdb.
  - destruct (required_fail d (VBool true) (dict_get_In _ _ _ Hv)) as [e He]; [discriminate|].
    exists e. unfold validate, get_validation_errors, validate_config_schema.
    now rewrite He, Hdb.
Qed.

Lemma X3_bool_version_witness :
  check_required_fields [("version", VBool true)] = [] /\
  exists e, validate [("version", VBool true)] = Ret (false, [VSchemaError e]).
Proof. apply X3_bool_version; reflexivity. Defined.

(** X4: a document that [validate] accepts has an empty error list and an
    integer (not [bool]) [version]; that version is positive when [database]
    is present. *)
Theorem X4_valid_document_version (d : list (string * value)) (errs : list verror) :
  validate d = Ret (true, errs) ->
  errs = [] /\
  exists z, dict_get "version" d = Some (VInt z) /\ (dict_has "database" d = true -> 0 < z).
Proof. apply validate_true_version. Qed.

Lemma X4_valid_document_version_witness :
  [] = @nil verror /\
  exists z, dict_get "version" [("version", VInt 2)] = Some (VInt z) /\
            (dict_has "database" [("version", VInt 2)] = true -> 0 < z).
Proof. apply (X4_valid_document_version _ []). reflexivity. Defined.

(** X5: on a dict with distinct keys, [validate_required_fields] returns
    [True] exactly when the [version] key holds an integer (not a [bool]);
    other keys are unconstrained. *)
Theorem X5_validate_required_fields (d : list (string * value)) :
  nodup_keys d = true ->
  validate_required_fields d = true <-> exists z, dict_get "version" d = Some (VInt z).
Proof.
  intros Hnd. unfold validate_required_fields. split.
  - destruct (validate_s REQUIRED_FIELDS_SCHEMA (VDict d)) eqn:Hr; [discriminate|intros _].
    destruct (dict_get "version" d) as [v|] eqn:Hv.
    2: { rewrite (required_missing_version d Hv) in Hr. discriminate. }
    destruct v as [| b | z | | | |]; eauto;
      destruct (required_fail d _ (dict_get_In _ _ _ Hv)) as [e He]; try discriminate;
      congruence.
  - intros [z Hv]. rewrite required_pass; [reflexivity| |].
    + unfold dict_has. now rewrite Hv.
    + intros v Hin. rewrite (In_dict_get_nodup _ _ _ (nodup_keys_NoDup _ Hnd) Hin) in Hv.
      now inversion Hv.
Qed.

Lemma X5_validate_required_fields_witness :
  validate_required_fields [("version", VInt 3); ("name", VStr "auth")] = true <->
  exists z, dict_get "version" [("version", VInt 3); ("name", VStr "auth")] = Some (VInt z).
Proof. apply X5_validate_required_fields. reflexivity. Defined.

(** X6: when [quick_yaml_check] refuses a text, [parse_yaml] fails with a
    message [m] and [validate_config] reports [(False, None, [m])]: the
    fallback message [Unknown parsing error] is never produced. *)
Theorem X6_validate_config_parse_failure (safe_load : string -> yaml_load_result) (s : string) :
  quick_yaml_check safe_load s = false ->
  exists m, parse_yaml safe_load s = (false, None, Some m) /\
            validate_config safe_load s = Ret (false, None, [VMsg m]).
Proof.
  unfold quick_yaml_check, validate_config, parse_yaml.
  destruct (String.eqb s "" || py_strip_empty s).
  - intros _. eexists. split; reflexivity.
  - destruct (safe_load s) as [[| | | | | |data]| m | m | m]; cbn; intros H;
      try discriminate H; eexists; split; reflexivity.
Qed.

Lemma X6_validate_config_parse_failure_witness :
  exists m, parse_yaml (fun _ => YScannerError "bad") "a: [" = (false, None, Some m) /\
            validate_config (fun _ => YScannerError "bad") "a: [" = Ret (false, None, [VMsg m]).
Proof. apply X6_validate_config_parse_failure. reflexivity. Defined.

(** The shape of a successful save. *)
Lemma save_shape d service payload m d' :
  save_configuration d service payload = Ret (m, d') ->
  exists z p,
    d' = mkDb (db_rows d ++ [mkRow (db_next_id d) service z p (db_clock d)])
              (db_next_id d + 1) (db_clock d + 1) /\
    m = model_of_row (mkRow (db_next_id d) service z p (db_clock d)) /\
    match dict_get "version" payload with
    | None | Some VNull => z = q_max_version d service + 1 /\ p = dict_set "version" (VInt z) payload
    | Some v => v = VInt z /\ p = payload
    end.
Proof.
  unfold save_configuration.
  destruct (dict_get "version" payload) as [v|] eqn:Hv.
  - destruct v; cbn; intros H; try discriminate H; inversion H; subst; do 2 eexists;
      (split; [reflexivity|]); (split; [reflexivity|]); auto.
  - cbn; intros H; inversion H; subst; do 2 eexists;
      (split; [reflexivity|]); (split; [reflexivity|]); auto.
Qed.

(** X7: [create_configuration] changes the store only when it answers 201, and
    then by appending exactly one row, of the requested service; every other
    answer (422, 500) leaves the store as it was. *)
Theorem X7_create_writes_only_on_success (safe_load : string -> yaml_load_result)
  (d : db) (service s : string) :
  let '(resp, d') := create_configuration safe_load d service s in
  (vr_status resp = 201 ->
   exists r, db_rows d' = (db_rows d ++ [r])%list /\ row_service r = service) /\
  (vr_status resp <> 201 -> d' = d).
Proof.
  unfold create_configuration.
  destruct (validate_config safe_load s) as [[[valid data] errs]|e]; [|cbn; split; [discriminate|auto]].
  destruct valid; cbn; [|split; [discriminate|auto]].
  destruct data as [data|]; [|cbn; split; [discriminate|auto]].
  destruct (save_configuration d service data) as [[m d']|e] eqn:Hs; [|cbn; split; [discriminate|auto]].
  destruct (save_shape _ _ _ _ _ Hs) as [z [p [-> _]]].
  cbn. split; [|congruence]. intros _. eexists. split; reflexivity.
Qed.

Lemma create_valid (safe_load : string -> yaml_load_result)
  (d : db) (service s : string) (doc : list (string * value)) :
  py_strip_empty s = false -> safe_load s = YLoaded (VDict doc) -> validate doc = Ret (true, []) ->
  exists z, dict_get "version" doc = Some (VInt z) /\
  create_configuration safe_load d service s =
    (mkVResp (Some (VDict [("service", VStr service); ("version", VInt z); ("status", VStr "saved")]))
       None 201,
     mkDb (db_rows d ++ [mkRow (db_next_id d) service z doc (db_clock d)])
          (db_next_id d + 1) (db_clock d + 1)).
Proof.
  intros Hb Hl Hv.
  destruct (validate_true_version doc [] Hv) as [_ [z [Hz _]]].
  exists z. split; [exact Hz|].
  unfold create_configuration, validate_config, parse_yaml.
  rewrite Hb, orb_false_r.
  destruct (String.eqb_spec s "") as [->|_]; [discriminate|].
  rewrite Hl, Hv. cbn. unfold save_configuration. rewrite Hz. reflexivity.
Qed.

(** X8: for a non-blank text that loads to a document [validate] accepts,
    [create_configuration] answers 201 with data [{service, version, status:
    saved}] where [version] is the document's own integer [version], and
    appends one row holding that version and the document unchanged: the
    handler never lets the store assign a version. *)
Theorem X8_create_keeps_document_version (safe_load : string -> yaml_load_result)
  (d : db) (service s : string) (doc : list (string * value)) :
  py_strip_empty s = false -> safe_load s = YLoaded (VDict doc) -> validate doc = Ret (true, []) ->
  exists z, dict_get "version" doc = Some (VInt z) /\
  create_configuration safe_load d service s =
    (mkVResp (Some (VDict [("service", VStr service); ("version", VInt z); ("status", VStr "saved")]))
       None 201,
     mkDb (db_rows d ++ [mkRow (db_next_id d) service z doc (db_clock d)])
          (db_next_id d + 1) (db_clock d + 1)).
Proof. apply create_valid. Qed.

Lemma X8_create_keeps_document_version_witness :
  exists z, dict_get "version" [("version", VInt 7)] = Some (VInt z) /\
  create_configuration (fun _ => YLoaded (VDict [("version", VInt 7)])) empty_db "auth" "version: 7" =
    (mkVResp (Some (VDict [("service", VStr "auth"); ("version", VInt z); ("status", VStr "saved")]))
       None 201,
     mkDb (db_rows empty_db ++ [mkRow (db_next_id empty_db) "auth" z [("version", VInt 7)] (db_clock empty_db)])
          (db_next_id empty_db + 1) (db_clock empty_db + 1)).
Proof. apply X8_create_keeps_document_version; reflexivity. Defined.

(** X9: for a non-blank text that loads to a document whose [database] is not
    an object, [create_configuration] answers 500 with an [Internal server
    error: ...] message (the validator raises instead of reporting) and leaves
    the store unchanged. *)
Theorem X9_create_database_not_object (safe_load : string -> yaml_load_result)
  (d : db) (service s : string) (doc : list (string * value)) (v : value) :
  py_strip_empty s = false -> safe_load s = YLoaded (VDict doc) ->
  dict_get "database" doc = Some v -> isinstance v TDict = false ->
  exists m, create_configuration safe_load d service s =
    (mkVResp None (Some (ErrText ("Internal server error: " ++ m))) 500, d).
Proof.
  intros Hb Hl Hdb Hv.
  unfold create_configuration, validate_config, parse_yaml.
  rewrite Hb, orb_false_r.
  destruct (String.eqb_spec s "") as [->|_]; [discriminate|].
  rewrite Hl. cbn. unfold validate, get_validation_errors. rewrite Hdb.
  destruct v; try discriminate Hv; eexists; reflexivity.
Qed.

Lemma X9_create_database_not_object_witness :
  exists m, create_configuration (fun _ => YLoaded (VDict [("version", VInt 1); ("database", VStr "db")]))
    empty_db "auth" "version: 1" =
    (mkVResp None (Some (ErrText ("Internal server error: " ++ m))) 500, empty_db).
Proof.
  apply (X9_create_database_not_object _ _ _ _ [("version", VInt 1); ("database", VStr "db")] (VStr "db"));
    reflexivity.
Defined.

Lemma sort_desc_app_max l x :
  (forall y, In y l -> row_version y < row_version x) ->
  exists rest, sort_desc (l ++ [x]) = x :: rest.
Proof.
  induction l as [|y l IH]; intros H; cbn; [eauto|].
  destruct IH as [rest E]; [intros; apply H; now right|].
  rewrite E. cbn. specialize (H y (or_introl eq_refl)).
  destruct (Z.leb_spec (row_version x) (row_version y)); [lia|eauto].
Qed.

Lemma rows_of_app_new service rows r :
  row_service r = service -> rows_of service (rows ++ [r]) = (rows_of service rows ++ [r])%list.
Proof.
  intros Hs. unfold rows_of. rewrite filter_app. cbn. rewrite Hs, String.eqb_refl. reflexivity.
Qed.

Lemma filter_none {A} (f : A -> bool) l :
  (forall x, In x l -> f x = false) -> filter f l = [].
Proof.
  induction l as [|x l IH]; cbn; intros H; [reflexivity|].
  rewrite (H x (or_introl eq_refl)). apply IH. auto.
Qed.

(** X10: after a successful create of a document with version [z], reading
    version [z] without a template returns the document, provided the service
    had no row of version [z] before; reading the latest version returns it
    when [z] is larger than every earlier version of the service. *)
Theorem X10_create_then_get (safe_load : string -> yaml_load_result)
  (d : db) (service s : string) (doc : list (string * value)) (z : Z) :
  py_strip_empty s = false -> safe_load s = YLoaded (VDict doc) -> validate doc = Ret (true, []) ->
  dict_get "version" doc = Some (VInt z) ->
  (forallb (fun r => negb (row_version r =? z)) (rows_of service (db_rows d)) = true ->
   handler_get_configuration (snd (create_configuration safe_load d service s)) service (Some z) false None
   = Some (mkVResp (Some (VDict doc)) None 200)) /\
  (forallb (fun r => row_version r <? z) (rows_of service (db_rows d)) = true ->
   handler_get_configuration (snd (create_configuration safe_load d service s)) service None false None
   = Some (mkVResp (Some (VDict doc)) None 200)).
Proof.
  intros Hb Hl Hv Hz.
  destruct (create_valid safe_load d service s doc Hb Hl Hv) as [z' [Hz' E]].
  rewrite Hz in Hz'. inversion Hz'; subst z'.
  rewrite E. cbn [snd]. unfold handler_get_configuration, get_configuration. cbn [db_rows].
  rewrite rows_of_app_new by reflexivity.
  split; intros Hnone; rewrite forallb_forall in Hnone.
  - rewrite filter_app.
    replace (filter (fun r => row_version r =? z) (rows_of service (db_rows d))) with (@nil row).
    + cbn. now rewrite Z.eqb_refl.
    + symmetry. apply filter_none. intros r Hin.
      apply negb_true_iff. now apply Hnone.
  - destruct (sort_desc_app_max (rows_of service (db_rows d))
                (mkRow (db_next_id d) service z doc (db_clock d))) as [rest ->].
    + intros y Hin. cbn. apply Z.ltb_lt. now apply Hnone.
    + reflexivity.
Qed.

Lemma X10_create_then_get_witness :
  handler_get_configuration
    (snd (create_configuration (fun _ => YLoaded (VDict [("version", VInt 7)])) sample_store "auth" "version: 7"))
    "auth" (Some 7) false None
  = Some (mkVResp (Some (VDict [("version", VInt 7)])) None 200) /\
  handler_get_configuration
    (snd (create_configuration (fun _ => YLoaded (VDict [("version", VInt 7)])) sample_store "auth" "version: 7"))
    "auth" None false None
  = Some (mkVResp (Some (VDict [("version", VInt 7)])) None 200).
Proof.
  destruct (X10_create_then_get (fun _ => YLoaded (VDict [("version", VInt 7)])) sample_store "auth" "version: 7"
              [("version", VInt 7)] 7) as [H1 H2]; try reflexivity.
  split; [apply H1 | apply H2]; reflexivity.
Defined.

(** X11: when the service has no row (of the requested version, if one is
    given), [get_configuration] answers 404 with ['Configuration not found for
    service '<service>''], followed by [' version <v>'] only for a non-zero
    version: version 0 is falsy and gets no suffix. *)
Theorem X11_get_not_found (d : db) (service : string) (version : option Z)
  (use_template : bool) (params : option (list (string * string))) :
  forallb (fun r => match version with Some v => negb (row_version r =? v) | None => false end)
    (rows_of service (db_rows d)) = true ->
  handler_get_configuration d service version use_template params =
  Some (mkVResp None
    (Some (ErrText ("Configuration not found for service '" ++ service ++ "'" ++
                    match version with
                    | Some v => if v =? 0 then "" else " version " ++ py_int_repr v
                    | None => ""
                    end))) 404).
Proof.
  intros H. rewrite forallb_forall in H. unfold handler_get_configuration, get_configuration.
  destruct version as [v|].
  - rewrite filter_none; [reflexivity|].
    intros r Hin. apply negb_true_iff. exact (H r Hin).
  - destruct (rows_of service (db_rows d)) as [|r rs]; [reflexivity|].
    discriminate (H r (or_introl eq_refl)).
Qed.

Lemma X11_get_not_found_witness :
  handler_get_configuration empty_db "auth" (Some 0) false None =
  Some (mkVResp None
    (Some (ErrText ("Configuration not found for service '" ++ "auth" ++ "'" ++
                    if 0 =? 0 then "" else " version " ++ py_int_repr 0))) 404).
Proof. apply (X11_get_not_found empty_db "auth" (Some 0)). reflexivity. Defined.

(** [dict_merge] has a key when either side has it. *)
Lemma dict_has_merge {A} k (a b : list (string * A)) :
  dict_has k (dict_merge a b) = dict_has k a || dict_has k b.
Proof.
  unfold dict_merge. revert a.
  induction b as [|[k' v'] r IH]; intros a; cbn [fold_left fst snd].
  - now rewrite orb_false_r.
  - rewrite IH. unfold dict_has. cbn [dict_get].
    destruct (String.eqb_spec k k') as [->|Hne].
    + rewrite dict_get_set. now destruct (dict_get k' a), (dict_get k' r).
    + rewrite dict_get_set_other by exact Hne. reflexivity.
Qed.

Lemma template_context_self p :
  dict_has "self" (template_context p) = dict_has "self" p.
Proof. unfold template_context. now rewrite dict_has_merge. Qed.

(** X12: reading with [template=1] returns the stored document unchanged, with
    status 200, when the document's JSON text holds none of the openers [{{],
    [{%], [{#], its keys are distinct and it holds no NaN, and the template
    parameters have no key [self]. *)
Theorem X12_get_template_plain (d : db) (service : string) (version : option Z)
  (params : option (list (string * string))) (m : config_model) :
  get_configuration d service version = Some m ->
  json_doc_ok (VDict (m_payload m)) = true ->
  contains "{{" (json_dumps (VDict (m_payload m))) = false ->
  contains "{%" (json_dumps (VDict (m_payload m))) = false ->
  contains "{#" (json_dumps (VDict (m_payload m))) = false ->
  match params with Some p => dict_has "self" p | None => false end = false ->
  handler_get_configuration d service version true params =
  Some (mkVResp (Some (VDict (m_payload m))) None 200).
Proof.
  intros Hg Hok H1 H2 H3 Hs.
  unfold handler_get_configuration. rewrite Hg.
  unfold process_template_request, render_config_template.
  rewrite jinja_render_plain
    by (try rewrite template_context_self; destruct params; (apply no_cr_dumps || assumption; exact Hok)).
  now rewrite json_loads_dumps.
Qed.

Lemma X12_get_template_plain_witness :
  handler_get_configuration (mkDb [mkRow 1 "auth" 1 [("version", VInt 1); ("host", VStr "db")] 0] 2 1)
    "auth" None true (Some [("env", "prod")]) =
  Some (mkVResp (Some (VDict (m_payload (mkModel 1 "auth" (VInt 1) [("version", VInt 1); ("host", VStr "db")] 0))))
    None 200).
Proof. apply X12_get_template_plain; vm_compute; reflexivity. Defined.

(** X20: a template parameter [self] makes a read with [template=1] answer
    400 ['Template processing failed: Template rendering error: ...'] for a
    document whose JSON text holds none of the openers [{{], [{%], [{#]:
    [render] called with the keyword arguments [context] raises [TypeError],
    which [render_config_template] turns into [ValueError]. *)
Theorem X20_get_template_self (d : db) (service : string) (version : option Z)
  (p : list (string * string)) (m : config_model) :
  get_configuration d service version = Some m ->
  json_doc_ok (VDict (m_payload m)) = true ->
  contains "{{" (json_dumps (VDict (m_payload m))) = false ->
  contains "{%" (json_dumps (VDict (m_payload m))) = false ->
  contains "{#" (json_dumps (VDict (m_payload m))) = false ->
  dict_has "self" p = true ->
  exists msg, handler_get_configuration d service version true (Some p) =
  Some (mkVResp None (Some (ErrText ("Template processing failed: Template rendering error: " ++ msg))) 400).
Proof.
  intros Hg Hok H1 H2 H3 Hs.
  unfold handler_get_configuration. rewrite Hg.
  unfold process_template_request, render_config_template.
  rewrite jinja_render_self
    by (try rewrite template_context_self; (apply no_cr_dumps || assumption; exact Hok)).
  eexists. reflexivity.
Qed.

Lemma X20_get_template_self_witness :
  exists msg, handler_get_configuration sample_store "auth" None true (Some [("env", "prod"); ("self", "x")]) =
  Some (mkVResp None (Some (ErrText ("Template processing failed: Template rendering error: " ++ msg))) 400).
Proof.
  apply (X20_get_template_self sample_store "auth" None [("env", "prod"); ("self", "x")]
           (mkModel 3 "auth" (VInt 5) [("version", VInt 5)] 2)); vm_compute; reflexivity.
Defined.

(** The keys of [dict_set]. *)
Lemma map_fst_dict_set {A} k (v : A) d :
  map fst (dict_set k v d) = if dict_has k d then map fst d else (map fst d ++ [k])%list.
Proof.
  unfold dict_has. induction d as [|[k' v'] r IH]; cbn; [reflexivity|].
  destruct (String.eqb_spec k k') as [->|Hne]; cbn; [reflexivity|].
  rewrite IH. destruct (dict_get k r); reflexivity.
Qed.

Lemma NoDup_dict_set {A} k (v : A) d : NoDup (map fst d) -> NoDup (map fst (dict_set k v d)).
Proof.
  intros Hnd. rewrite map_fst_dict_set. unfold dict_has.
  destruct (dict_get k d) eqn:E; [exact Hnd|].
  apply NoDup_app; [exact Hnd|repeat constructor; auto|].
  intros x Hx [<-|[]]. apply in_map_iff in Hx as [[k' v'] [Hk Hin]]. cbn in Hk; subst.
  destruct (In_dict_get_some _ _ _ Hin) as [w Hw]. congruence.
Qed.

Lemma parse_query_params_NoDup args : NoDup (map fst (parse_query_params args)).
Proof.
  unfold parse_query_params.
  assert (H : forall acc : list (string * qparam), NoDup (map fst acc) ->
    NoDup (map fst (fold_left (fun params kv =>
      dict_set (fst kv) (qparam_of (snd kv)) params) args acc))).
  { induction args as [|kv r IH]; cbn; intros acc Hacc; [exact Hacc|].
    apply IH. now apply NoDup_dict_set. }
  apply H. constructor.
Qed.

Lemma query_fold_get {A} k (l acc : list (string * A)) :
  NoDup (map fst l) ->
  dict_get k (fold_left (fun tp kv =>
                 if existsb (String.eqb (fst kv)) ["version"; "template"] then tp
                 else dict_set (fst kv) (snd kv) tp) l acc) =
  if existsb (String.eqb k) ["version"; "template"] then dict_get k acc
  else match dict_get k l with Some v => Some v | None => dict_get k acc end.
Proof.
  revert acc. induction l as [|[k' v'] r IH]; intros acc Hnd; cbn [fold_left dict_get].
  - destruct (existsb (String.eqb k) ["version"; "template"]); reflexivity.
  - inversion Hnd as [|? ? Hn Hnd']; subst. rewrite (IH _ Hnd'). cbn [fst snd].
    destruct (String.eqb_spec k k') as [<-|Hne].
    + rewrite (dict_get_notin _ _ Hn).
      destruct (existsb (String.eqb k) ["version"; "template"]); [reflexivity|].
      apply dict_get_set.
    + destruct (existsb (String.eqb k) ["version"; "template"]); [|destruct (dict_get k r); [reflexivity|]];
        (destruct (existsb (String.eqb k') ["version"; "template"]); [reflexivity|]);
        now apply dict_get_set_other.
Qed.

(** X13: the template parameters [render_GET] passes on never hold the keys
    [version] and [template]; every other query parameter is passed on with
    its parsed value. *)
Theorem X13_query_template_params (args : list (string * list string)) (k : string) :
  dict_get k (query_template_params (parse_query_params args)) =
  if existsb (String.eqb k) ["version"; "template"] then None
  else dict_get k (parse_query_params args).
Proof.
  unfold query_template_params.
  rewrite query_fold_get by apply parse_query_params_NoDup.
  destruct (existsb (String.eqb k) ["version"; "template"]); [reflexivity|].
  destruct (dict_get k (parse_query_params args)); reflexivity.
Qed.

(** The errors [validate] reports are schema errors and the two database
    messages. *)
Lemma validate_errors_not_empty_yaml d b errs :
  validate d = Ret (b, errs) -> errs <> [VMsg "Empty YAML content"].
Proof.
  unfold validate, get_validation_errors.
  destruct (validate_config_schema d);
    destruct (dict_get "database" d) as [[| | | | | |db]|]; try (intros H; discriminate H);
    try (destruct (negb (opt_truthy (dict_get "host" db)) || _);
         destruct (negb (opt_isinstance (dict_get "port" db) TInt) || _));
    cbn; intros H; inversion H; subst; discriminate.
Qed.

(** X14: [render_POST] never answers with the validation error [Empty YAML
    content]: a blank body is refused earlier with 400 [Empty request body].
    *)
Theorem X14_post_never_empty_yaml (safe_load : string -> yaml_load_result)
  (d : db) (service body : string) :
  vr_error (fst (render_POST safe_load d service body))
  <> Some (ErrValidation [VMsg "Empty YAML content"]).
Proof.
  unfold render_POST. destruct (py_strip_empty body) eqn:Hb; [discriminate|].
  unfold create_configuration, validate_config, parse_yaml.
  rewrite Hb, orb_false_r.
  destruct (String.eqb_spec body "") as [->|_]; [discriminate|].
  destruct (safe_load body) as [[| | | | | |data]| m | m | m]; cbn; try discriminate.
  destruct (validate data) as [[valid errs]|e] eqn:Hv; cbn; [|discriminate].
  destruct valid; cbn.
  - destruct (save_configuration d service data) as [[m d']|e]; cbn; discriminate.
  - intros H. inversion H as [H']. exact (validate_errors_not_empty_yaml _ _ _ Hv H').
Qed.

Section StringTemplates.
Local Open Scope nat_scope.

Lemma contains_brace_head s :
  contains "{" s = false ->
  match s with String c _ => (c =? "{")%char = false | EmptyString => True end.
Proof.
  destruct s as [|c r]; [auto|]. cbn [contains strip_prefix].
  destruct (Ascii.eqb_spec "{" c) as [<-|Hne]; [discriminate|].
  intros _. apply Ascii.eqb_neq. congruence.
Qed.

Lemma contains_brace s x :
  contains "{" s = false -> contains (String "{" x) s = false.
Proof.
  induction s as [|c r IH]; intros H.
  - destruct x; reflexivity.
  - pose proof (contains_brace_head _ H) as Hc. cbn in Hc.
    cbn [contains strip_prefix]. rewrite Ascii.eqb_sym, Hc.
    apply IH. exact (contains_cons _ _ _ H).
Qed.

Lemma jlex_data a rest n data acc :
  contains "{" a = false ->
  jlex (String.length a + n) (a ++ rest) data acc = jlex n rest (data ++ a) acc.
Proof.
  revert data. induction a as [|c a' IH]; intros data H.
  - cbn. now rewrite sapp_nil_r.
  - pose proof (contains_brace_head _ H) as Hc. cbn in Hc.
    cbn [String.length Nat.add jlex append]. rewrite Hc.
    rewrite IH by exact (contains_cons _ _ _ H).
    now rewrite sapp_assoc.
Qed.

Lemma find_sub_close i b :
  contains "}" i = false -> find_sub "}}" (i ++ "}}" ++ b) = Some (i, b).
Proof.
  induction i as [|c i' IH]; intros H; [reflexivity|].
  cbn [append find_sub strip_prefix].
  assert (Hc : ("}" =? c)%char = false).
  { apply Ascii.eqb_neq. intros <-. cbn in H. discriminate H. }
  rewrite Hc. change (String "}" (String "}" b)) with ("}}" ++ b). rewrite IH; [reflexivity|].
  cbn [contains strip_prefix] in H. rewrite Hc in H. exact H.
Qed.

Lemma find_sub_none p s : contains p s = false -> find_sub p s = None.
Proof.
  induction s as [|c r IH]; intros H; cbn [contains] in H; cbn [find_sub];
    destruct (strip_prefix p _); try discriminate H; [reflexivity|].
  now rewrite IH.
Qed.

Lemma jlex_var f s data acc :
  jlex (S f) (String "{" (String "{" s)) data acc =
  match find_sub "}}" s with
  | Some (inner, after) =>
      if is_plain_name (trim inner) then jlex f after EmptyString (JVar (trim inner) :: flush data ++ acc)
      else LUnsupported
  | None => LUnsupported
  end.
Proof. reflexivity. Qed.

Lemma jlex_comment_open f s data acc :
  find_sub "#}" s = None -> existsb (String.eqb s) [""; "-"; "+"] = false ->
  jlex (S f) (String "{" (String "#" s)) data acc = LSyntaxError "Missing end of comment tag".
Proof.
  intros H Hs. cbn [jlex]. cbv beta iota. simpl Ascii.eqb. cbv iota. rewrite H.
  destruct s as [|c [|c' s']]; [discriminate Hs| |reflexivity].
  unfold starts_with_ctrl. cbn [existsb] in Hs.
  destruct (Ascii.eqb_spec c "-") as [->|H1]; [discriminate Hs|].
  destruct (Ascii.eqb_spec c "+") as [->|H2]; [discriminate Hs|].
  reflexivity.
Qed.

Lemma jlex_comment_end f data acc :
  jlex (S f) (String "{" (String "#" EmptyString)) data acc =
  if lstrip_applies data then LUnsupported else LOk (rev acc ++ flush data).
Proof. reflexivity. Qed.

Lemma no_cr_brace_var i b : no_cr i = true -> no_cr b = true -> no_cr ("{{" ++ i ++ "}}" ++ b) = true.
Proof. intros Hi Hb. cbn [append no_cr]. rewrite no_cr_app. cbn. now rewrite Hi, Hb. Qed.

End StringTemplates.

(** X15: [render_string_template] replaces a variable [{{ name }}] between two
    texts without [{] (and no carriage return) by the context's value for
    [name], or by the empty string when the context lacks it (for a name that
    is neither a literal, an operator nor an environment global), under a
    context without the key [self]. *)
Theorem X15_render_string_variable (a i b : string) (ctx : list (string * string)) :
  contains "{" a = false -> contains "{" b = false ->
  no_cr a = true -> no_cr i = true -> no_cr b = true ->
  contains "}" i = false -> is_plain_name (trim i) = true ->
  existsb (String.eqb (trim i)) jinja_reserved = false ->
  existsb (String.eqb (trim i)) jinja_globals = false ->
  dict_has "self" ctx = false ->
  render_string_template (a ++ "{{" ++ i ++ "}}" ++ b) ctx =
  SRendered (a ++ get_or (trim i) ctx "" ++ b).
Proof.
  intros Ha Hb Hcra Hcri Hcrb Hi Hn Hr Hg Hs.
  unfold render_string_template, jinja_render.
  rewrite normalize_no_cr by (rewrite no_cr_app, Hcra; now apply no_cr_brace_var).
  set (rest := "{{" ++ i ++ "}}" ++ b).
  replace (S (String.length (a ++ rest))) with (String.length a + S (String.length rest))%nat
    by (rewrite slength_app; lia).
  rewrite jlex_data by exact Ha.
  subst rest. change ("{{" ++ ?x) with (String "{" (String "{" x)).
  rewrite jlex_var, find_sub_close by exact Hi. rewrite Hn.
  rewrite jlex_plain.
  2: { change "{{" with (String "{" "{"). now apply contains_brace. }
  2: { change "{%" with (String "{" "%"). now apply contains_brace. }
  2: { change "{#" with (String "{" "#"). now apply contains_brace. }
  2: { cbn [String.length]. rewrite slength_app. cbn [String.length append]. lia. }
  cbn [append rev].
  destruct a as [|ca a'], b as [|cb b']; cbn [flush app rev has_reserved existsb]; rewrite Hr, Hs;
    cbn [negb orb]; cbn [jrender]; rewrite Hr;
    unfold get_or; destruct (dict_get (trim i) ctx); try rewrite Hg;
    cbn [append]; rewrite ?sapp_nil_r; reflexivity.
Qed.

Lemma X15_render_string_variable_witness :
  render_string_template ("host: " ++ "{{" ++ " region " ++ "}}" ++ ".db") [("region", "eu")] =
  SRendered ("host: " ++ get_or (trim " region ") [("region", "eu")] "" ++ ".db").
Proof. apply X15_render_string_variable; reflexivity. Defined.

(** X16: a comment opener [{#] followed by a text [b] without [#}], after a
    text without [{], where [b] is neither empty nor a lone [-] or [+] (then
    the lexer stops at the end of the text without reporting),
    makes [validate_template_syntax] report [(False, 'Missing end of comment
    tag')] and [render_string_template] raise [ValueError('String template
    rendering failed: Missing end of comment tag')]. *)
Theorem X16_unclosed_comment (a b : string) (ctx : list (string * string)) :
  contains "{" a = false -> no_cr a = true -> no_cr b = true -> contains "#}" b = false ->
  existsb (String.eqb b) [""; "-"; "+"] = false ->
  validate_template_syntax (a ++ "{#" ++ b) = Some (false, Some "Missing end of comment tag") /\
  render_string_template (a ++ "{#" ++ b) ctx =
  SRenderValueError "String template rendering failed: Missing end of comment tag".
Proof.
  intros Ha Hcra Hcrb Hb Hb'.
  assert (Hcr : no_cr (a ++ "{#" ++ b) = true) by (rewrite no_cr_app, Hcra; cbn; exact Hcrb).
  assert (Hlex : jlex (S (String.length (a ++ "{#" ++ b))) (a ++ "{#" ++ b) EmptyString []
                 = LSyntaxError "Missing end of comment tag").
  { replace (S (String.length (a ++ "{#" ++ b))) with (String.length a + S (S (S (String.length b))))%nat
      by (rewrite slength_app; cbn [String.length append]; lia).
    rewrite jlex_data by exact Ha. cbn [append].
    apply jlex_comment_open; [now apply find_sub_none | exact Hb']. }
  unfold validate_template_syntax, render_string_template, jinja_render.
  rewrite (normalize_no_cr _ Hcr), Hlex. split; reflexivity.
Qed.

Lemma X16_unclosed_comment_witness :
  validate_template_syntax ("port: 1 " ++ "{#" ++ " note") = Some (false, Some "Missing end of comment tag") /\
  render_string_template ("port: 1 " ++ "{#" ++ " note") [] =
  SRenderValueError "String template rendering failed: Missing end of comment tag".
Proof. apply X16_unclosed_comment; reflexivity. Defined.

(** X21: a comment opener [{#] that ends the text, after a text [a] without
    [{] whose last line is not blank, is dropped: [validate_template_syntax]
    reports [(True, None)] and [render_string_template] returns [a], under a
    context without the key [self]. *)
Theorem X21_comment_open_at_end (a : string) (ctx : list (string * string)) :
  contains "{" a = false -> no_cr a = true -> lstrip_applies a = false ->
  dict_has "self" ctx = false ->
  validate_template_syntax (a ++ "{#") = Some (true, None) /\
  render_string_template (a ++ "{#") ctx = SRendered a.
Proof.
  intros Ha Hcra Hl Hs.
  assert (Hcr : no_cr (a ++ "{#") = true) by (rewrite no_cr_app, Hcra; reflexivity).
  assert (Hlex : jlex (S (String.length (a ++ "{#"))) (a ++ "{#") EmptyString [] = LOk (flush a)).
  { replace (S (String.length (a ++ "{#"))) with (String.length a + 3)%nat
      by (rewrite slength_app; cbn [String.length]; lia).
    rewrite jlex_data by exact Ha. cbn [append].
    change 3%nat with (S 2). rewrite jlex_comment_end, Hl. reflexivity. }
  unfold validate_template_syntax, render_string_template, jinja_render.
  rewrite (normalize_no_cr _ Hcr), Hlex.
  destruct a as [|c r]; cbn [flush has_reserved existsb]; rewrite Hs; cbn; [split; reflexivity|].
  rewrite sapp_nil_r. split; reflexivity.
Qed.

Lemma X21_comment_open_at_end_witness :
  validate_template_syntax ("port: 1 " ++ "{#") = Some (true, None) /\
  render_string_template ("port: 1 " ++ "{#") [("user", "alice")] = SRendered "port: 1 ".
Proof. apply X21_comment_open_at_end; reflexivity. Defined.

Lemma rows_of_app_other service rows r :
  String.eqb (row_service r) service = false -> rows_of service (rows ++ [r]) = rows_of service rows.
Proof.
  intros Hs. unfold rows_of. rewrite filter_app. cbn. rewrite Hs. apply app_nil_r.
Qed.

(** X17: saving a configuration of one service leaves another service's
    history, its reads (latest or any version) and its maximum version
    unchanged. *)
Theorem X17_save_other_service (d d' : db) (service other : string)
  (payload : list (string * value)) (m : config_model) :
  save_configuration d other payload = Ret (m, d') -> String.eqb other service = false ->
  get_configuration_history d' service = get_configuration_history d service /\
  (forall version, get_configuration d' service version = get_configuration d service version) /\
  q_max_version d' service = q_max_version d service.
Proof.
  intros Hs Hne.
  destruct (save_shape _ _ _ _ _ Hs) as [z [p [-> _]]].
  unfold get_configuration_history, get_configuration, q_max_version. cbn [db_rows].
  rewrite rows_of_app_other by exact Hne.
  split; [reflexivity|]. split; [reflexivity|reflexivity].
Qed.

Lemma X17_save_other_service_witness :
  get_configuration_history (mkDb [mkRow 1 "auth" 1 [] 0; mkRow 2 "billing" 4 [("version", VInt 4)] 1] 3 2) "auth"
  = get_configuration_history (mkDb [mkRow 1 "auth" 1 [] 0] 2 1) "auth" /\
  (forall version,
     get_configuration (mkDb [mkRow 1 "auth" 1 [] 0; mkRow 2 "billing" 4 [("version", VInt 4)] 1] 3 2) "auth" version
     = get_configuration (mkDb [mkRow 1 "auth" 1 [] 0] 2 1) "auth" version) /\
  q_max_version (mkDb [mkRow 1 "auth" 1 [] 0; mkRow 2 "billing" 4 [("version", VInt 4)] 1] 3 2) "auth"
  = q_max_version (mkDb [mkRow 1 "auth" 1 [] 0] 2 1) "auth".
Proof.
  apply (X17_save_other_service (mkDb [mkRow 1 "auth" 1 [] 0] 2 1) _ "auth" "billing"
           [("version", VInt 4)] (mkModel 2 "billing" (VInt 4) [("version", VInt 4)] 1));
    reflexivity.
Defined.

(** X18: after a save whose payload has no [version] (absent or [null]),
    reading the latest version of the service returns exactly the saved model,
    and the handler answers 200 with its payload. *)
Theorem X18_save_then_latest (d d' : db) (service : string)
  (payload : list (string * value)) (m : config_model) :
  save_configuration d service payload = Ret (m, d') ->
  match dict_get "version" payload with None | Some VNull => true | Some _ => false end = true ->
  get_configuration d' service None = Some m /\
  handler_get_configuration d' service None false None = Some (mkVResp (Some (VDict (m_payload m))) None 200).
Proof.
  intros Hs Hv.
  destruct (save_shape _ _ _ _ _ Hs) as [z [p [-> [-> Hz]]]].
  assert (Hz' : z = q_max_version d service + 1).
  { destruct (dict_get "version" payload) as [[]|]; try discriminate Hv; apply Hz. }
  assert (Hget : get_configuration (mkDb (db_rows d ++ [mkRow (db_next_id d) service z p (db_clock d)])
                   (db_next_id d + 1) (db_clock d + 1)) service None
                 = Some (model_of_row (mkRow (db_next_id d) service z p (db_clock d)))).
  { unfold get_configuration. cbn [db_rows].
    rewrite rows_of_app_new by reflexivity.
    destruct (sort_desc_app_max (rows_of service (db_rows d))
                (mkRow (db_next_id d) service z p (db_clock d))) as [rest ->]; [|reflexivity].
    intros y Hin. cbn. destruct (q_max_version_spec d service) as [_ H1].
    assert (Hne : rows_of service (db_rows d) <> []) by (intros E; rewrite E in Hin; exact Hin).
    pose proof (proj2 (H1 Hne) y Hin). lia. }
  split; [exact Hget|].
  unfold handler_get_configuration. rewrite Hget. reflexivity.
Qed.

Lemma X18_save_then_latest_witness :
  get_configuration (mkDb [mkRow 1 "auth" 5 [("version", VInt 5)] 0; mkRow 2 "auth" 6 [("version", VInt 6)] 1] 3 2)
    "auth" None = Some (mkModel 2 "auth" (VInt 6) [("version", VInt 6)] 1) /\
  handler_get_configuration
    (mkDb [mkRow 1 "auth" 5 [("version", VInt 5)] 0; mkRow 2 "auth" 6 [("version", VInt 6)] 1] 3 2)
    "auth" None false None
  = Some (mkVResp (Some (VDict (m_payload (mkModel 2 "auth" (VInt 6) [("version", VInt 6)] 1)))) None 200).
Proof.
  apply (X18_save_then_latest (mkDb [mkRow 1 "auth" 5 [("version", VInt 5)] 0] 2 1) _ "auth" []);
    reflexivity.
Defined.

Lemma fold_set_map_get {A B} (g : A -> B) k (l : list (string * A)) (acc : list (string * B)) :
  NoDup (map fst l) ->
  dict_get k (fold_left (fun acc kv => dict_set (fst kv) (g (snd kv)) acc) l acc) =
  match dict_get k l with Some v => Some (g v) | None => dict_get k acc end.
Proof.
  revert acc. induction l as [|[k' v'] r IH]; intros acc Hnd; cbn [fold_left dict_get]; [reflexivity|].
  inversion Hnd as [|? ? Hn Hnd']; subst. rewrite (IH _ Hnd'). cbn [fst snd].
  destruct (String.eqb_spec k k') as [<-|Hne].
  - rewrite (dict_get_notin _ _ Hn). apply dict_get_set.
  - destruct (dict_get k r); [reflexivity|]. now apply dict_get_set_other.
Qed.

(** X19: for [request.args] with distinct keys, [render_GET] renders templates
    exactly when [template] was given once with value [1]; a repeated
    [template] parameter becomes a list and disables rendering. *)
Theorem X19_template_flag (args : list (string * list string)) :
  nodup_keys args = true ->
  query_use_template (parse_query_params args) = true <-> dict_get "template" args = Some ["1"].
Proof.
  intros Hnd. unfold query_use_template, parse_query_params.
  rewrite (fold_set_map_get qparam_of)
    by exact (nodup_keys_NoDup _ Hnd).
  destruct (dict_get "template" args) as [[|v [|v' vs]]|]; cbn;
    split; intros H; try discriminate H; try (inversion H; fail).
  - apply String.eqb_eq in H. now subst.
  - inversion H. reflexivity.
Qed.

Lemma X19_template_flag_witness :
  query_use_template (parse_query_params [("template", ["1"; "1"]); ("env", ["prod"])]) = true <->
  dict_get "template" [("template", ["1"; "1"]); ("env", ["prod"])] = Some ["1"].
Proof. apply X19_template_flag. reflexivity. Defined.
